(** * Onlook: billing schedule workflow, usage display and project router

    A shallow embedding of
      - packages/stripe/src/functions.ts
      - the usage section component (UsageSection)
      - apps/web/client/src/server/api/routers/project/project.ts
    Asynchronous code that talks to the billing provider, the database, the
    language model and the analytics sink is written in a small free monad
    [Prog]: every awaited external call is a [Call] node whose continuation
    receives either the rejection or the resolved value, so that [try]/[catch]
    and error propagation are those of the source. *)

From Stdlib Require Import ZArith Floats.
From stdpp Require Import base option list strings pretty sorting gmap.

Local Open Scope Z_scope.
Local Open Scope string_scope.

(** ** JavaScript errors and asynchronous programs *)

(** [new Error(message)]. *)
Record JsError := Error { message : string }.

(** A JavaScript string is falsy exactly when it is empty. *)
Definition string_truthy (s : string) : bool :=
  match s with
  | EmptyString => false
  | String _ _ => true
  end.

(** The calls a program can make to the outside, each with the type of what
    it resolves to. *)
Record Signature := { call : Type; response : call → Type }.

(** A program returns, throws, makes a call and goes on with its answer (the
    rejection or the resolved value), or writes to the console. *)
Inductive Prog (E : Signature) (A : Type) : Type :=
| Ret (a : A)
| Throw (e : JsError)
| Call (c : call E) (k : JsError + response E c → Prog E A)
| Log (msg : string) (k : Prog E A).
Arguments Ret {E A} a.
Arguments Throw {E A} e.
Arguments Call {E A} c k.
Arguments Log {E A} msg k.

(** [await c]: a rejected promise is rethrown at the await. A synchronous
    call that may throw is written the same way. *)
Definition await {E : Signature} (c : call E) : Prog E (response E c) :=
  Call c (λ r, match r with inl e => Throw e | inr v => Ret v end).

Fixpoint bind {E A B} (p : Prog E A) (f : A → Prog E B) : Prog E B :=
  match p with
  | Ret a => f a
  | Throw e => Throw e
  | Call c k => Call c (λ r, bind (k r) f)
  | Log m k => Log m (bind k f)
  end.

(** [try { p } catch (error) { h error }]. *)
Fixpoint try_catch {E A} (p : Prog E A) (h : JsError → Prog E A) : Prog E A :=
  match p with
  | Ret a => Ret a
  | Throw e => h e
  | Call c k => Call c (λ r, try_catch (k r) h)
  | Log m k => Log m (try_catch k h)
  end.

Notation "x <~ p ;; q" := (bind p (λ x, q))
  (at level 100, p at next level, right associativity,
   format "'[v' x  <~  p  ;;  '/' q ']'").

(** The environment answers every call from its own state: it either rejects
    with an error or resolves with a value. *)
Definition Handler (E : Signature) (W : Type) : Type :=
  ∀ c : call E, W → W * (JsError + response E c).

Inductive TraceEntry (E : Signature) : Type :=
| Called (c : call E) (r : JsError + response E c)
| Logged (msg : string).
Arguments Called {E} c r.
Arguments Logged {E} msg.

(** Runs a program against an environment; returns the final state of the
    environment, the calls issued in order with the answer each one got, and
    the outcome. *)
Fixpoint run {E W A} (h : Handler E W) (p : Prog E A) (w : W)
  : W * list (TraceEntry E) * (JsError + A) :=
  match p with
  | Ret a => (w, [], inr a)
  | Throw e => (w, [], inl e)
  | Call c k =>
      let '(w1, r) := h c w in
      let '(w2, t, out) := run h (k r) w1 in
      (w2, Called c r :: t, out)
  | Log m k =>
      let '(w1, t, out) := run h k w in
      (w1, Logged m :: t, out)
  end.

(** ** packages/stripe/src/functions.ts *)

Module Stripe.

(** [Price] of ./types. The monthly message limit is a whole number of
    messages; on whole numbers [>] is the order of the integers. *)
Record Price := { monthlyMessageLimit : Z }.

Definition isTierUpgrade (currentPrice newPrice : Price) : bool :=
  monthlyMessageLimit newPrice >? monthlyMessageLimit currentPrice.

(** The handle returned by [createStripeClient] (./client); creating it can
    throw, which [await] propagates like any other throw. *)
Inductive StripeClient := stripe_client (handle : positive).

(** [string | Stripe.Price | Stripe.DeletedPrice]: the identifier, or the
    expanded object. *)
Inductive PriceRef :=
| PriceId (id : string)
| PriceObject (id : string)
| DeletedPriceObject (id : string).

(** [price.toString()]: a string is itself; an object inherits
    [Object.prototype.toString]. *)
Definition price_toString (p : PriceRef) : string :=
  match p with
  | PriceId s => s
  | PriceObject _ | DeletedPriceObject _ => "[object Object]"
  end.

Record PhaseItem := { item_price : PriceRef; item_quantity : option Z }.
Record Phase :=
  { phase_items : list PhaseItem; start_date : Z; end_date : Z }.
Record Schedule := { schedule_id : string; phases : list Phase }.

(** Parameters of [subscriptionSchedules.update]; a key that the source
    leaves out is [None]. *)
Record PhaseItemParams :=
  { param_price : string; param_quantity : option Z }.
Record PhaseParams :=
  { param_items : list PhaseItemParams;
    param_start_date : option Z;
    param_end_date : option Z;
    param_iterations : option Z }.
Record ScheduleUpdateParams := { param_phases : list PhaseParams }.

Inductive StripeCall :=
| CreateStripeClient
| SubscriptionSchedulesCreate (stripe : StripeClient)
    (from_subscription : string)
| SubscriptionSchedulesUpdate (stripe : StripeClient)
    (id : string) (params : ScheduleUpdateParams)
| SubscriptionSchedulesRelease (stripe : StripeClient) (id : string)
| SubscriptionSchedulesRetrieve (stripe : StripeClient) (id : string).

Definition StripeResponse (c : StripeCall) : Type :=
  match c with
  | CreateStripeClient => StripeClient
  | _ => Schedule
  end.

Canonical Structure StripeE : Signature :=
  {| call := StripeCall; response := StripeResponse |}.

Definition updateSubscriptionNextPeriod (subscriptionId priceId : string)
  : Prog StripeE Schedule :=
  stripe <~ await CreateStripeClient ;;
  (* Step 1: create a subscription schedule from the current subscription *)
  schedule <~ await (SubscriptionSchedulesCreate stripe subscriptionId) ;;
  match phases schedule !! 0%nat with
  | None => Throw (Error "No current phase found")
  | Some currentPhase =>
      match phase_items currentPhase !! 0%nat with
      | None => Throw (Error "No current item found")
      | Some currentItem =>
          let currentPrice := price_toString (item_price currentItem) in
          if negb (string_truthy currentPrice)
          then Throw (Error "No current price found")
          else
            (* Step 2: add a phase that changes the price from the next
               billing period on *)
            updatedSchedule <~ await (SubscriptionSchedulesUpdate stripe
              (schedule_id schedule)
              {| param_phases :=
                   [ {| param_items :=
                          [ {| param_price := currentPrice;
                               param_quantity := item_quantity currentItem |} ];
                        param_start_date := Some (start_date currentPhase);
                        param_end_date := Some (end_date currentPhase);
                        param_iterations := None |};
                     {| param_items :=
                          [ {| param_price := priceId;
                               param_quantity := Some 1 |} ];
                        param_start_date := None;
                        param_end_date := None;
                        param_iterations := Some 1 |} ] |}) ;;
            Ret updatedSchedule
      end
  end.

Definition releaseSubscriptionSchedule (subscriptionScheduleId : string)
  : Prog StripeE Schedule :=
  stripe <~ await CreateStripeClient ;;
  await (SubscriptionSchedulesRelease stripe subscriptionScheduleId).

Definition getSubscriptionSchedule (subscriptionScheduleId : string)
  : Prog StripeE Schedule :=
  stripe <~ await CreateStripeClient ;;
  await (SubscriptionSchedulesRetrieve stripe subscriptionScheduleId).

(** A stand-in for the provider, to run the workflow on concrete data: it
    keeps the schedules it has created by identifier; [from_subscription]
    snapshots the phases recorded for the subscription, and an update puts the
    phases it is given in place of the stored ones (a date that the update
    leaves out is the end of the last stored phase). *)
Record Provider :=
  { subscriptions : gmap string (list Phase);
    schedules : gmap string Schedule }.

Definition phase_of_params (fallback : Phase) (p : PhaseParams) : Phase :=
  {| phase_items :=
       (λ i, {| item_price := PriceId (param_price i);
                item_quantity := param_quantity i |}) <$> param_items p;
     start_date := default (end_date fallback) (param_start_date p);
     end_date := default (end_date fallback) (param_end_date p) |}.

Definition provider : Handler StripeE Provider :=
  λ c,
    match c return Provider → Provider * (JsError + response StripeE c) with
    | CreateStripeClient => λ w, (w, inr (stripe_client 1))
    | SubscriptionSchedulesCreate _ sub => λ w,
        match subscriptions w !! sub with
        | None => (w, inl (Error "No such subscription"))
        | Some ps =>
            let s := {| schedule_id := "sub_sched_" +:+ sub; phases := ps |} in
            ({| subscriptions := subscriptions w;
                schedules := <[schedule_id s := s]> (schedules w) |}, inr s)
        end
    | SubscriptionSchedulesUpdate _ id params => λ w,
        match schedules w !! id with
        | None => (w, inl (Error "No such subscription schedule"))
        | Some old =>
            let fallback := default {| phase_items := []; start_date := 0;
                                       end_date := 0 |} (last (phases old)) in
            let s := {| schedule_id := id;
                        phases := phase_of_params fallback
                                    <$> param_phases params |} in
            ({| subscriptions := subscriptions w;
                schedules := <[id := s]> (schedules w) |}, inr s)
        end
    | SubscriptionSchedulesRelease _ id => λ w,
        match schedules w !! id with
        | None => (w, inl (Error "No such subscription schedule"))
        | Some s =>
            ({| subscriptions := subscriptions w;
                schedules := delete id (schedules w) |}, inr s)
        end
    | SubscriptionSchedulesRetrieve _ id => λ w,
        match schedules w !! id with
        | None => (w, inl (Error "No such subscription schedule"))
        | Some s => (w, inr s)
        end
    end.

(** No entry of a trace is a call to [subscriptionSchedules.update]. *)
Definition no_update_call (t : list (TraceEntry StripeE)) : Prop :=
  ∀ stripe id params answer,
    Called (SubscriptionSchedulesUpdate stripe id params) answer ∉ t.

(** Sample data for the in-memory provider. *)
Definition item_pro : PhaseItem :=
  {| item_price := PriceId "price_pro"; item_quantity := Some 1 |}.

Definition phase_pro : Phase :=
  {| phase_items := [item_pro];
     start_date := 1748736000; end_date := 1751328000 |}.

Definition provider_with (sub : string) (ps : list Phase) : Provider :=
  {| subscriptions := {[ sub := ps ]}; schedules := ∅ |}.

Definition phase_without_items : Phase :=
  {| phase_items := []; start_date := 1748736000; end_date := 1751328000 |}.

Definition item_without_price : PhaseItem :=
  {| item_price := PriceId ""; item_quantity := Some 1 |}.

Definition phase_without_price : Phase :=
  {| phase_items := [item_without_price];
     start_date := 1748736000; end_date := 1751328000 |}.

End Stripe.

(** ** The usage section of the subscription settings (UsageSection) *)

Module Usage.
Import Stripe.

(** [ScheduledSubscriptionAction] of @onlook/stripe. *)
Inductive ScheduledSubscriptionAction := PRICE_CHANGE | CANCELLATION.

Global Instance ScheduledSubscriptionAction_eq_dec :
  EqDecision ScheduledSubscriptionAction.
Proof. solve_decision. Defined.

(** A JavaScript [Date], by its time value in milliseconds. *)
Record Date := { time_value : Z }.

(** [subscription.scheduledChange]; an absent key or [null] is [None]. *)
Record ScheduledChange :=
  { scheduledAction : option ScheduledSubscriptionAction;
    price : option Price;
    scheduledChangeAt : Date }.

(** The data of [api.subscription.get]. *)
Record Subscription := { scheduledChange : option ScheduledChange }.

(** One bucket of [api.usage.get]; both counts are JavaScript numbers. *)
Record UsageBucket := { usageCount : float; limitCount : float }.

(** [usage.limitCount > 0 ? usage.usageCount / usage.limitCount * 100 : 0] *)
Definition usagePercent (usage : UsageBucket) : float :=
  if (0 <? limitCount usage)%float
  then (usageCount usage / limitCount usage * 100)%float
  else 0%float.

(** [<div className=...>{message}</div>] *)
Record Element := Div { className : string; children : string }.

Section Message.

(** [date.toLocaleDateString('en-US', { month: 'long', day: 'numeric',
    year: 'numeric' })], which the runtime computes in its own time zone. *)
Variable toLocaleDateString : Date → string.

(** The text built by the two template literals; a number in a template
    literal is written in decimal. *)
Definition changeMessageText (subscription : option Subscription) : string :=
  match subscription ≫= scheduledChange with
  | None => ""
  | Some change =>
      match scheduledAction change, price change with
      | Some PRICE_CHANGE, Some target =>
          "Your " +:+ pretty (monthlyMessageLimit target)
          +:+ " messages a month plan starts on "
          +:+ toLocaleDateString (scheduledChangeAt change)
      | Some CANCELLATION, _ =>
          "Your subscription will end on "
          +:+ toLocaleDateString (scheduledChangeAt change)
      | _, _ => ""
      end
  end.

(** Returns the element to render, or [None] where the source returns
    [undefined] and nothing is rendered. *)
Definition getSubscriptionChangeMessage (subscription : option Subscription)
  : option Element :=
  let message := changeMessageText subscription in
  if string_truthy message
  then Some (Div "text-amber text-mini text-balance" message)
  else None.

End Message.

(** [s] occurs in [t] as a contiguous piece. *)
Definition includes (t s : string) : Prop :=
  ∃ before after, t = before +:+ s +:+ after.

(** A formatter for running the message on concrete dates: the day count since
    the epoch, in place of the calendar date. *)
Definition day_number (d : Date) : string :=
  "day " +:+ pretty (time_value d `div` 86400000).

(** Sample scheduled changes. *)
Definition change_to_pro : ScheduledChange :=
  {| scheduledAction := Some PRICE_CHANGE;
     price := Some {| monthlyMessageLimit := 500 |};
     scheduledChangeAt := {| time_value := 1751328000000 |} |}.

Definition cancellation : ScheduledChange :=
  {| scheduledAction := Some CANCELLATION;
     price := None;
     scheduledChangeAt := {| time_value := 1751328000000 |} |}.

End Usage.

(** ** apps/web/client/src/server/api/routers/project/project.ts *)

Module Project.

(** *** JavaScript strings and arrays *)

(** A string as its UTF-16 code units; [length] counts them. *)
Definition jsstring := list N.

Definition js (s : string) : jsstring :=
  Ascii.N_of_ascii <$> String.list_ascii_of_string s.

(** WhiteSpace and LineTerminator of ECMAScript, the code units that
    [String.prototype.trim] strips. *)
Definition is_white_space (c : N) : bool :=
  ((c =? 0x9) || (c =? 0xA) || (c =? 0xB) || (c =? 0xC) || (c =? 0xD)
   || (c =? 0x20) || (c =? 0xA0) || (c =? 0x1680)
   || ((0x2000 <=? c) && (c <=? 0x200A))
   || (c =? 0x2028) || (c =? 0x2029) || (c =? 0x202F) || (c =? 0x205F)
   || (c =? 0x3000) || (c =? 0xFEFF))%N.

Fixpoint dropWhile {A} (f : A → bool) (l : list A) : list A :=
  match l with
  | [] => []
  | x :: l' => if f x then dropWhile f l' else l
  end.

Definition trim (s : jsstring) : jsstring :=
  reverse (dropWhile is_white_space (reverse (dropWhile is_white_space s))).

(** A JavaScript number that is an integer or NaN ([None]). *)
Definition jsnumber := option Z.

Definition number_sub (a b : jsnumber) : jsnumber :=
  match a, b with
  | Some x, Some y => Some (x - y)%Z
  | _, _ => None
  end.

(** [Array.prototype.sort(comparefn)]: the sort is stable, and a comparator
    result that is NaN counts as +0. [x] is put before [y] when the
    comparator is not positive on them, with [x] coming first in the array. *)
Definition sort_before {A} (comparefn : A → A → jsnumber) (x y : A) : bool :=
  match comparefn x y with
  | Some v => (v <=? 0)%Z
  | None => true
  end.

Fixpoint sort_insert {A} (comparefn : A → A → jsnumber) (x : A) (l : list A)
  : list A :=
  match l with
  | [] => [x]
  | y :: l' =>
      if sort_before comparefn x y then x :: l
      else y :: sort_insert comparefn x l'
  end.

Definition array_sort {A} (comparefn : A → A → jsnumber) (l : list A)
  : list A :=
  foldr (sort_insert comparefn) [] l.

(** Under a numeric key: [a] has a key, [b] has a key, and the key of [b] is
    not the greater. A list is newest first when this holds from every
    element to every later one. *)
Definition not_before {A} (key : A → jsnumber) (a b : A) : Prop :=
  ∃ ka kb, key a = Some ka ∧ key b = Some kb ∧ (kb ≤ ka)%Z.

(** [a ?? b] *)
Definition nullish {A} (a : option A) (b : A) : A :=
  match a with
  | Some v => v
  | None => b
  end.

(** *** @onlook/db and @onlook/models

    The row types, the default rows and the row-to-model mappers are declared
    in packages of the repository that the router imports. The router reads
    the fields named here and nothing else of them. *)
Class OnlookDb := {
  (** rows *)
  DbProject : Type;
  project_id : DbProject → string;
  (** [projectInsertSchema] *)
  NewProject : Type;
  sandboxUrl : NewProject → string;
  DbCanvas : Type;
  canvas_id : DbCanvas → string;
  DbUserCanvas : Type;
  DbFrame : Type;
  DbConversation : Type;
  (** [projectCreateRequestInsertSchema.omit({ projectId: true })] *)
  CreationData : Type;
  (** models *)
  ProjectModel : Type;
  (** [new Date(project.metadata.updatedAt).getTime()] *)
  updatedAt_getTime : ProjectModel → jsnumber;
  CanvasModel : Type;
  FrameModel : Type;
  ConversationModel : Type;
  (** defaults *)
  createDefaultCanvas : string → DbCanvas;
  createDefaultUserCanvas : string → string → DbUserCanvas;
  createDefaultFrame : string → string → DbFrame;
  createDefaultConversation : string → DbConversation;
  (** mappers *)
  toProject : DbProject → ProjectModel;
  toCanvas : DbUserCanvas → CanvasModel;
  toFrame : DbFrame → FrameModel;
  toConversation : DbConversation → ConversationModel;
}.

(** Enumerations of @onlook/models: the member the router names, and the
    other members by their name. *)
Inductive ProjectRole := OWNER | other_role (name : string).
Inductive ProjectCreateRequestStatus := PENDING | other_status (name : string).
Inductive LLMProvider := OPENROUTER | other_provider (name : string).
Inductive OPENROUTER_MODELS :=
| OPEN_AI_GPT_4_1_NANO
| other_model (name : string).

(** What [initModel] resolves to: three objects that the router only passes
    on, each named by a handle. *)
Record ModelConfig :=
  { model : positive; providerOptions : positive; headers : positive }.

Record GenerateTextOptions :=
  { gt_model : positive;
    gt_headers : positive;
    gt_prompt : jsstring;
    gt_providerOptions : positive;
    gt_maxTokens : Z }.

Record GenerateTextResult := { text : jsstring }.

Section Router.
Context `{OnlookDb}.

(** Rows of the join table and of the creation requests. *)
Record UserProjectRow :=
  { up_userId : string; up_projectId : string; up_role : ProjectRole }.

Record ProjectCreateRequestRow :=
  { request_data : CreationData;
    request_status : ProjectCreateRequestStatus;
    request_projectId : string }.

(** [userProjects.findMany({ with: { project: true } })] *)
Record UserProjectWithProject :=
  { up_row : UserProjectRow; up_project : DbProject }.

(** [projects.findFirst({ with: { canvas: { with: { frames, userCanvases } },
    conversations } })] *)
Record CanvasWithRelations :=
  { cv_canvas : DbCanvas;
    cv_frames : list DbFrame;
    cv_userCanvases : list DbUserCanvas }.

Record ProjectWithRelations :=
  { pr_project : DbProject;
    pr_canvas : option CanvasWithRelations;
    pr_conversations : list DbConversation }.

Record TrackedEvent :=
  { distinctId : string; event : string; properties_projectId : string }.

(** The calls of the router: queries of the database, calls to the language
    model, and what the [create] callback does on its transaction [tx] and
    the analytics sink. *)
Inductive QueryCall :=
| UserProjectsFindMany (where_userId : string)
| ProjectsFindFirstFull (where_id : string) (userCanvases_userId : string).

Definition QueryResponse (c : QueryCall) : Type :=
  match c with
  | UserProjectsFindMany _ => list UserProjectWithProject
  | ProjectsFindFirstFull _ _ => option ProjectWithRelations
  end.

Canonical Structure QueryE : Signature :=
  {| call := QueryCall; response := QueryResponse |}.

Inductive AiCall :=
| InitModel (provider : LLMProvider) (m : OPENROUTER_MODELS)
| GenerateText (options : GenerateTextOptions).

Definition AiResponse (c : AiCall) : Type :=
  match c with
  | InitModel _ _ => ModelConfig
  | GenerateText _ => GenerateTextResult
  end.

Canonical Structure AiE : Signature :=
  {| call := AiCall; response := AiResponse |}.

Inductive TxCall :=
| InsertProjectReturning (values : NewProject)
| InsertUserProject (values : UserProjectRow)
| InsertCanvas (values : DbCanvas)
| InsertUserCanvas (values : DbUserCanvas)
| InsertFrame (values : DbFrame)
| InsertConversation (values : DbConversation)
| InsertProjectCreateRequest (values : ProjectCreateRequestRow)
| TrackEvent (e : TrackedEvent).

Definition TxResponse (c : TxCall) : Type :=
  match c with
  | InsertProjectReturning _ => list DbProject
  | _ => unit
  end.

Canonical Structure TxE : Signature :=
  {| call := TxCall; response := TxResponse |}.

(** [list]; the name [list] is the list type here. *)
Definition project_list (ctx_user_id : string) : Prog QueryE (list ProjectModel) :=
  fetchedUserProjects <~ await (UserProjectsFindMany ctx_user_id) ;;
  Ret (array_sort
         (λ a b, number_sub (updatedAt_getTime b) (updatedAt_getTime a))
         ((λ userProject, toProject (up_project userProject))
            <$> fetchedUserProjects)).

(** The object that [getFullProject] returns for a project that exists. *)
Record FullProject :=
  { full_project : ProjectModel;
    full_userCanvas : CanvasModel;
    full_frames : list FrameModel;
    full_conversations : list ConversationModel }.

(** What a property of that object can hold. *)
Inductive FullProjectValue :=
| ProjectValue (project : ProjectModel)
| CanvasValue (canvas : CanvasModel)
| FramesValue (frames : list FrameModel)
| ConversationsValue (conversations : list ConversationModel).

(** The own properties of that object, as its literal lists them. *)
Definition own_properties (full : FullProject)
  : list (string * FullProjectValue) :=
  [ ("project", ProjectValue (full_project full));
    ("userCanvas", CanvasValue (full_userCanvas full));
    ("frames", FramesValue (full_frames full));
    ("conversations", ConversationsValue (full_conversations full)) ]%list.

(** [full[key]]; [None] is [undefined], what reading a property that the
    object does not have gives. *)
Definition property (full : FullProject) (key : string)
  : option FullProjectValue :=
  snd <$> head (filter (λ entry, entry.1 = key) (own_properties full)).

(** [getFullProject]; [None] is the [null] of the source. *)
Definition getFullProject (ctx_user_id projectId : string)
  : Prog QueryE (option FullProject) :=
  project <~ await (ProjectsFindFirstFull projectId ctx_user_id) ;;
  match project with
  | None => Log "project not found" (Ret None)
  | Some project =>
      let canvas : DbCanvas :=
        nullish (cv_canvas <$> pr_canvas project)
                (createDefaultCanvas (project_id (pr_project project))) in
      let userCanvas : DbUserCanvas :=
        nullish (pr_canvas project ≫= λ c, cv_userCanvases c !! 0%nat)
                (createDefaultUserCanvas ctx_user_id (canvas_id canvas)) in
      Ret (Some
        {| full_project := toProject (pr_project project);
           full_userCanvas := toCanvas userCanvas;
           full_frames :=
             nullish ((λ c, toFrame <$> cv_frames c) <$> pr_canvas project) [];
           full_conversations :=
             nullish (Some (toConversation <$> pr_conversations project))
                     [] |})
  end.

Record CreateInput :=
  { input_project : NewProject;
    input_userId : string;
    input_creationData : option CreationData }.

(** The callback handed to [ctx.db.transaction] by [create]. *)
Definition create_callback (input : CreateInput) : Prog TxE DbProject :=
  (* 1. Insert the new project *)
  rows <~ await (InsertProjectReturning (input_project input)) ;;
  match rows !! 0%nat with
  | None => Throw (Error "Failed to create project in database")
  | Some newProject =>
      (* 2. Create the association in the junction table *)
      _ <~ await (InsertUserProject
                    {| up_userId := input_userId input;
                       up_projectId := project_id newProject;
                       up_role := OWNER |}) ;;
      (* 3. Create the default canvas *)
      let newCanvas := createDefaultCanvas (project_id newProject) in
      _ <~ await (InsertCanvas newCanvas) ;;
      let newUserCanvas :=
        createDefaultUserCanvas (input_userId input) (canvas_id newCanvas) in
      _ <~ await (InsertUserCanvas newUserCanvas) ;;
      (* 4. Create the default frame *)
      let newFrame :=
        createDefaultFrame (canvas_id newCanvas)
                           (sandboxUrl (input_project input)) in
      _ <~ await (InsertFrame newFrame) ;;
      (* 5. Create the default conversation *)
      let newConversation :=
        createDefaultConversation (project_id newProject) in
      _ <~ await (InsertConversation newConversation) ;;
      (* 6. Create the creation request *)
      _ <~ match input_creationData input with
           | Some creationData =>
               await (InsertProjectCreateRequest
                        {| request_data := creationData;
                           request_status := PENDING;
                           request_projectId := project_id newProject |})
           | None => Ret tt
           end ;;
      _ <~ await (TrackEvent
                    {| distinctId := input_userId input;
                       event := "user_create_project";
                       properties_projectId := project_id newProject |}) ;;
      Ret newProject
  end.

Definition MAX_NAME_LENGTH : nat := 50.

Definition generateName_prompt (prompt : jsstring) : jsstring :=
  (js "Generate a concise and meaningful project name (2-4 words maximum) that reflects the main purpose or theme of the project based on user's creation prompt. Generate only the project name, nothing else. Keep it short and descriptive. User's creation prompt: <prompt>"
  ++ prompt ++ js "</prompt>")%list.

(** [generateName] *)
Definition generateName (prompt : jsstring) : Prog AiE jsstring :=
  try_catch
    (config <~ await (InitModel OPENROUTER OPEN_AI_GPT_4_1_NANO) ;;
     result <~ await (GenerateText
                        {| gt_model := model config;
                           gt_headers := headers config;
                           gt_prompt := generateName_prompt prompt;
                           gt_providerOptions := providerOptions config;
                           gt_maxTokens := 50 |}) ;;
     let generatedName := trim (text result) in
     if match generatedName with [] => false | _ => true end
        && (0 <? length generatedName)%nat
        && (length generatedName <=? MAX_NAME_LENGTH)%nat
     then Ret generatedName
     else Ret (js "New Project"))
    (λ error, Log "Error generating project name:" (Ret (js "New Project"))).

(** What the language model gave for a prompt: the error of the call that
    failed, or the generated text. *)
Definition generated_text {W} (h : Handler AiE W) (w : W)
    (prompt : jsstring) : JsError + jsstring :=
  match h (InitModel OPENROUTER OPEN_AI_GPT_4_1_NANO) w with
  | (_, inl e) => inl e
  | (w1, inr config) =>
      match h (GenerateText
                 {| gt_model := model config;
                    gt_headers := headers config;
                    gt_prompt := generateName_prompt prompt;
                    gt_providerOptions := providerOptions config;
                    gt_maxTokens := 50 |}) w1 with
      | (_, inl e) => inl e
      | (_, inr result) => inr (text result)
      end
  end.

(** *** The database under [create]

    The tables that [create] writes, and the analytics sink beside them. *)
Record Database :=
  { projects : list DbProject;
    userProjects : list UserProjectRow;
    canvases : list DbCanvas;
    userCanvases : list DbUserCanvas;
    frames : list DbFrame;
    conversations : list DbConversation;
    projectCreateRequests : list ProjectCreateRequestRow }.

Record World := { database : Database; analytics : list TrackedEvent }.

(** What the services decide on their own: whether a call fails (a violated
    constraint, a lost connection, a throwing sink), whether the commit fails,
    and the row that an insert into [projects] stores and returns once its
    column defaults are filled in ([None]: the statement returns no row). *)
Record Environment :=
  { fails : TxCall → World → option JsError;
    commit_fails : World → option JsError;
    stored_project : World → NewProject → option DbProject }.

Definition on_database (f : Database → Database) (w : World) : World :=
  {| database := f (database w); analytics := analytics w |}.

Definition add_project (r : DbProject) (d : Database) : Database :=
  {| projects := projects d ++ [r]; userProjects := userProjects d;
     canvases := canvases d; userCanvases := userCanvases d;
     frames := frames d; conversations := conversations d;
     projectCreateRequests := projectCreateRequests d |}.

Definition add_userProject (r : UserProjectRow) (d : Database) : Database :=
  {| projects := projects d; userProjects := userProjects d ++ [r];
     canvases := canvases d; userCanvases := userCanvases d;
     frames := frames d; conversations := conversations d;
     projectCreateRequests := projectCreateRequests d |}.

Definition add_canvas (r : DbCanvas) (d : Database) : Database :=
  {| projects := projects d; userProjects := userProjects d;
     canvases := canvases d ++ [r]; userCanvases := userCanvases d;
     frames := frames d; conversations := conversations d;
     projectCreateRequests := projectCreateRequests d |}.

Definition add_userCanvas (r : DbUserCanvas) (d : Database) : Database :=
  {| projects := projects d; userProjects := userProjects d;
     canvases := canvases d; userCanvases := userCanvases d ++ [r];
     frames := frames d; conversations := conversations d;
     projectCreateRequests := projectCreateRequests d |}.

Definition add_frame (r : DbFrame) (d : Database) : Database :=
  {| projects := projects d; userProjects := userProjects d;
     canvases := canvases d; userCanvases := userCanvases d;
     frames := frames d ++ [r]; conversations := conversations d;
     projectCreateRequests := projectCreateRequests d |}.

Definition add_conversation (r : DbConversation) (d : Database) : Database :=
  {| projects := projects d; userProjects := userProjects d;
     canvases := canvases d; userCanvases := userCanvases d;
     frames := frames d; conversations := conversations d ++ [r];
     projectCreateRequests := projectCreateRequests d |}.

Definition add_projectCreateRequest (r : ProjectCreateRequestRow)
    (d : Database) : Database :=
  {| projects := projects d; userProjects := userProjects d;
     canvases := canvases d; userCanvases := userCanvases d;
     frames := frames d; conversations := conversations d;
     projectCreateRequests := projectCreateRequests d ++ [r] |}.

Section Transaction.
Variable env : Environment.

(** A statement that does not fail stores exactly the row it is given. *)
Definition perform (c : TxCall) : World → World * (JsError + response TxE c) :=
  match c return World → World * (JsError + response TxE c) with
  | InsertProjectReturning values => λ w,
      match stored_project env w values with
      | Some r => (on_database (add_project r) w, inr [r])
      | None => (w, inr [])
      end
  | InsertUserProject r => λ w, (on_database (add_userProject r) w, inr tt)
  | InsertCanvas r => λ w, (on_database (add_canvas r) w, inr tt)
  | InsertUserCanvas r => λ w, (on_database (add_userCanvas r) w, inr tt)
  | InsertFrame r => λ w, (on_database (add_frame r) w, inr tt)
  | InsertConversation r => λ w,
      (on_database (add_conversation r) w, inr tt)
  | InsertProjectCreateRequest r => λ w,
      (on_database (add_projectCreateRequest r) w, inr tt)
  | TrackEvent e => λ w,
      ({| database := database w; analytics := analytics w ++ [e] |}, inr tt)
  end.

Definition tx_handler : Handler TxE World :=
  λ c w,
    match fails env c w with
    | Some e => (w, inl e)
    | None => perform c w
    end.

(** [ctx.db.transaction(callback)]: the callback runs on the transaction; when
    it returns the transaction commits, and when it throws, or the commit
    fails, the database is as it was before and the error goes to the
    caller. What reached the analytics sink stays there. *)
Definition transaction {A} (callback : Prog TxE A) (w : World)
  : World * list (TraceEntry TxE) * (JsError + A) :=
  let '(w1, t, out) := run tx_handler callback w in
  let rolled_back := {| database := database w; analytics := analytics w1 |} in
  match out with
  | inl e => (rolled_back, t, inl e)
  | inr a =>
      match commit_fails env w1 with
      | Some e => (rolled_back, t, inl e)
      | None => (w1, t, inr a)
      end
  end.

(** [create] *)
Definition create (input : CreateInput) (w : World)
  : World * list (TraceEntry TxE) * (JsError + DbProject) :=
  transaction (create_callback input) w.


End Transaction.
End Router.
End Project.

(** ** Sample data for the project router *)

Module Sample.
Import Project.

(** A small instance of the database package: a project row with an
    identifier, a sandbox address and an update time; default rows that
    record what they were made for. *)
Record ProjectRow :=
  { row_id : string; row_sandboxUrl : string; row_updatedAt : Z }.

Record CanvasRow := { canvas_row_id : string; canvas_projectId : string }.

Record UserCanvasRow := { uc_userId : string; uc_canvasId : string }.

Record FrameRow := { frame_canvasId : string; frame_url : string }.

Record ConversationRow := { conversation_projectId : string }.

Global Instance db : OnlookDb :=
  {| DbProject := ProjectRow;
     project_id := row_id;
     NewProject := ProjectRow;
     sandboxUrl := row_sandboxUrl;
     DbCanvas := CanvasRow;
     canvas_id := canvas_row_id;
     DbUserCanvas := UserCanvasRow;
     DbFrame := FrameRow;
     DbConversation := ConversationRow;
     CreationData := string;
     ProjectModel := ProjectRow;
     updatedAt_getTime := λ p, Some (row_updatedAt p);
     CanvasModel := UserCanvasRow;
     FrameModel := FrameRow;
     ConversationModel := ConversationRow;
     createDefaultCanvas := λ projectId,
       {| canvas_row_id := "canvas-" +:+ projectId;
          canvas_projectId := projectId |};
     createDefaultUserCanvas := λ userId canvasId,
       {| uc_userId := userId; uc_canvasId := canvasId |};
     createDefaultFrame := λ canvasId url,
       {| frame_canvasId := canvasId; frame_url := url |};
     createDefaultConversation := λ projectId,
       {| conversation_projectId := projectId |};
     toProject := λ p, p;
     toCanvas := λ c, c;
     toFrame := λ f, f;
     toConversation := λ c, c |}.

(** A read-only store that answers the two queries from what it holds. *)
Record Store :=
  { store_userProjects : list UserProjectWithProject;
    store_projects : list ProjectWithRelations }.

Definition store : Handler QueryE Store :=
  λ c,
    match c return Store → Store * (JsError + response QueryE c) with
    | UserProjectsFindMany userId => λ w,
        (w, inr (filter (λ row, up_userId (up_row row) = userId)
                        (store_userProjects w)))
    | ProjectsFindFirstFull id _ => λ w,
        (w, inr (head (filter (λ p, row_id (pr_project p) = id)
                              (store_projects w))))
    end.

Definition owned (userId : string) (p : ProjectRow) : UserProjectWithProject :=
  {| up_row := {| up_userId := userId; up_projectId := row_id p;
                  up_role := OWNER |};
     up_project := p |}.

Definition blog : ProjectRow :=
  {| row_id := "p1"; row_sandboxUrl := "https://a.example";
     row_updatedAt := 1748736000000 |}.

Definition shop : ProjectRow :=
  {| row_id := "p2"; row_sandboxUrl := "https://b.example";
     row_updatedAt := 1751328000000 |}.

Definition wiki : ProjectRow :=
  {| row_id := "p3"; row_sandboxUrl := "https://c.example";
     row_updatedAt := 1750000000000 |}.

Definition blog_without_canvas : ProjectWithRelations :=
  {| pr_project := blog; pr_canvas := None; pr_conversations := [] |}.

Definition sample_store : Store :=
  {| store_userProjects :=
       [owned "ann" blog; owned "bob" wiki; owned "ann" shop;
        owned "ann" wiki];
     store_projects :=
       [ blog_without_canvas;
         {| pr_project := shop;
            pr_canvas :=
              Some {| cv_canvas := {| canvas_row_id := "c2";
                                      canvas_projectId := "p2" |};
                      cv_frames := [ {| frame_canvasId := "c2";
                                        frame_url := "https://b.example" |} ];
                      cv_userCanvases := [] |};
            pr_conversations := [ {| conversation_projectId := "p2" |} ] |} ]
  |}.

(** A language model that answers from a script: the next entry is the
    outcome of the next [generateText]. *)
Definition scripted_model : Handler AiE (list (JsError + jsstring)) :=
  λ c,
    match c return list (JsError + jsstring)
                   → list (JsError + jsstring) * (JsError + response AiE c)
    with
    | InitModel _ _ => λ w,
        (w, inr {| model := 1; providerOptions := 2; headers := 3 |})
    | GenerateText _ => λ w,
        match w with
        | [] => (w, inl (Error "no answer"))
        | inl e :: w1 => (w1, inl e)
        | inr t :: w1 => (w1, inr {| text := t |})
        end
    end.

(** A database that refuses a creation request whose data is "refused", and
    nothing else. *)
Definition strict_environment : Environment :=
  {| fails := λ c w,
       match c with
       | InsertProjectCreateRequest r =>
           if decide (request_data r = "refused")
           then Some (Error "violates check constraint") else None
       | _ => None
       end;
     commit_fails := λ _, None;
     stored_project := λ _ values, Some values |}.


Definition empty_world : World :=
  {| database :=
       {| projects := []; userProjects := []; canvases := [];
          userCanvases := []; frames := []; conversations := [];
          projectCreateRequests := [] |};
     analytics := [] |}.

Definition sample_input (creationData : option string) : CreateInput :=
  {| input_project := blog;
     input_userId := "ann";
     input_creationData := creationData |}.

End Sample.

(** ** packages/stripe/src/functions.ts: the single-call adapters *)

Module Billing.
Import Stripe.

(** What the provider resolves to; the adapters hand these on untouched. *)
Record Customer := { customer_id : string }.
Record CheckoutSession := { session_id : string; session_url : option string }.
Record BillingPortalSession := { portal_id : string; portal_url : string }.
Record ProviderSubscription := { provider_subscription_id : string }.

Record CustomerCreateParams :=
  { customer_name : string; customer_email : string }.

Record LineItem := { line_price : string; line_quantity : Z }.

Record SubscriptionDataParams := { data_proration_behavior : string }.

(** Parameters of [checkout.sessions.create]; [subscription_data] is [None]
    where the source leaves the key out. *)
Record CheckoutSessionCreateParams :=
  { mode : string;
    customer : string;
    line_items : list LineItem;
    payment_method_types : list string;
    metadata_user_id : string;
    allow_promotion_codes : bool;
    success_url : string;
    cancel_url : string;
    subscription_data : option SubscriptionDataParams }.

Record BillingPortalCreateParams :=
  { portal_customer : string; return_url : string }.

Record SubscriptionItemParams :=
  { update_item_id : string; update_item_price : string }.

Record SubscriptionUpdateParams :=
  { update_items : list SubscriptionItemParams;
    proration_behavior : string }.

Inductive BillingCall :=
| BillingClient
| CustomersCreate (stripe : StripeClient) (params : CustomerCreateParams)
| CheckoutSessionsCreate (stripe : StripeClient)
    (params : CheckoutSessionCreateParams)
| BillingPortalSessionsCreate (stripe : StripeClient)
    (params : BillingPortalCreateParams)
| SubscriptionsUpdate (stripe : StripeClient) (id : string)
    (params : SubscriptionUpdateParams).

Definition BillingResponse (c : BillingCall) : Type :=
  match c with
  | BillingClient => StripeClient
  | CustomersCreate _ _ => Customer
  | CheckoutSessionsCreate _ _ => CheckoutSession
  | BillingPortalSessionsCreate _ _ => BillingPortalSession
  | SubscriptionsUpdate _ _ _ => ProviderSubscription
  end.

Canonical Structure BillingE : Signature :=
  {| call := BillingCall; response := BillingResponse |}.

Definition createCustomer (name email : string) : Prog BillingE Customer :=
  stripe <~ await BillingClient ;;
  await (CustomersCreate stripe
           {| customer_name := name; customer_email := email |}).

(** [existing] of [createCheckoutSession]. *)
Record ExistingSubscription :=
  { existing_subscriptionId : string; existing_customerId : string }.

Record CheckoutInput :=
  { priceId : string;
    userId : string;
    stripeCustomerId : string;
    existing : option ExistingSubscription;
    successUrl : string;
    cancelUrl : string }.

Definition createCheckoutSession (input : CheckoutInput)
  : Prog BillingE CheckoutSession :=
  stripe <~ await BillingClient ;;
  session <~
    match existing input with
    | Some _ =>
        await (CheckoutSessionsCreate stripe
                 {| mode := "subscription";
                    customer := stripeCustomerId input;
                    line_items :=
                      [ {| line_price := priceId input; line_quantity := 1 |} ];
                    payment_method_types := ["card"];
                    metadata_user_id := userId input;
                    allow_promotion_codes := true;
                    success_url := successUrl input;
                    cancel_url := cancelUrl input;
                    subscription_data :=
                      Some {| data_proration_behavior :=
                                "create_prorations" |} |})
    | None =>
        await (CheckoutSessionsCreate stripe
                 {| mode := "subscription";
                    customer := stripeCustomerId input;
                    line_items :=
                      [ {| line_price := priceId input; line_quantity := 1 |} ];
                    payment_method_types := ["card"];
                    metadata_user_id := userId input;
                    allow_promotion_codes := true;
                    success_url := successUrl input;
                    cancel_url := cancelUrl input;
                    subscription_data := None |})
    end ;;
  Ret session.

Definition createBillingPortalSession (customerId returnUrl : string)
  : Prog BillingE BillingPortalSession :=
  stripe <~ await BillingClient ;;
  await (BillingPortalSessionsCreate stripe
           {| portal_customer := customerId; return_url := returnUrl |}).

Definition updateSubscription
    (subscriptionId subscriptionItemId priceId : string)
  : Prog BillingE ProviderSubscription :=
  stripe <~ await BillingClient ;;
  await (SubscriptionsUpdate stripe subscriptionId
           {| update_items :=
                [ {| update_item_id := subscriptionItemId;
                     update_item_price := priceId |} ];
              proration_behavior := "always_invoice" |}).

End Billing.

(** The calls of a trace, in order, without the console output. *)
Fixpoint trace_calls {E : Signature} (t : list (TraceEntry E))
  : list (call E) :=
  match t with
  | [] => []
  | Called c _ :: t' => c :: trace_calls t'
  | Logged _ :: t' => trace_calls t'
  end.

(** The console output of a trace, in order. *)
Fixpoint trace_logs {E : Signature} (t : list (TraceEntry E)) : list string :=
  match t with
  | [] => []
  | Called _ _ :: t' => trace_logs t'
  | Logged m :: t' => m :: trace_logs t'
  end.

(** ** The usage section: the component around the two helpers *)

Module UsageView.
Import Stripe Usage.

(** [ProductType] of @onlook/stripe: the member the component names, and the
    other members by their name. *)
Inductive ProductType := FREE | other_product_type (name : string).

Global Instance ProductType_eq_dec : EqDecision ProductType.
Proof. solve_decision. Defined.

Record Product := { product_name : string; product_type : ProductType }.

(** The data of [api.subscription.get] as the component reads it: the product
    and the part that [getSubscriptionChangeMessage] reads. *)
Record SubscriptionData :=
  { data_product : option Product;
    data_subscription : Subscription }.

(** One bucket of [api.usage.get] with its period. *)
Record UsagePeriod := { usage : UsageBucket; period : string }.

Record UsageData :=
  { daily : option UsagePeriod; monthly : option UsagePeriod }.

(** What the component renders: the loading line, or the panel with the
    product name, the price label, the two counts, the period label, the
    scheduled-change message and the value of the progress bar. *)
Inductive View :=
| CalculatingUsage
| UsagePanel (name price : string) (shown_usageCount shown_limitCount : float)
    (period_label : string) (message : option Element) (progress : float).

Section Component.
(** [FREE_PRODUCT_CONFIG] of @onlook/stripe. *)
Variable FREE_PRODUCT_CONFIG : Product.
Variable toLocaleDateString : Date → string.

Definition UsageSection (subscription : option SubscriptionData)
    (usageData : option UsageData) : View :=
  let product :=
    default FREE_PRODUCT_CONFIG (subscription ≫= data_product) in
  let price :=
    if decide (product_type product = FREE) then "Trial" else "Active" in
  let usage :=
    if decide (product_type product = FREE)
    then usageData ≫= daily else usageData ≫= monthly in
  match usage with
  | None => CalculatingUsage
  | Some u =>
      UsagePanel (product_name product) price
        (usageCount (UsageView.usage u)) (limitCount (UsageView.usage u))
        (if decide (period u = "day") then "daily" else "monthly")
        (getSubscriptionChangeMessage toLocaleDateString
           (data_subscription <$> subscription))
        (usagePercent (UsageView.usage u))
  end.

End Component.
End UsageView.

(** ** project.ts: get, delete, getPreviewProjects and update *)

Module ProjectStore.
Import Project.

(** What the schema of @onlook/db decides and the router does not show:
    [projectUpdateSchema] and what a row becomes under [SET] with such
    values; and what the referential actions and triggers of the schema make
    of the rows of the other tables when project rows are deleted, when join
    rows are deleted, and when project rows are updated (with [ON DELETE
    CASCADE] the rows that reference a deleted row go too, with none they
    stay). *)
Class ProjectSchema `{OnlookDb} := {
  ProjectUpdate : Type;
  apply_update : ProjectUpdate → DbProject → DbProject;
  on_delete_projects : string → Database → Database;
  on_delete_userProjects : string → Database → Database;
  on_update_projects : ProjectUpdate → string → Database → Database;
}.

Section Store.
Context `{ProjectSchema}.

Inductive StoreCall :=
| ProjectsFindFirst (where_id : string)
| DeleteProjects (where_id : string)
| DeleteUserProjects (where_projectId : string)
| UpdateProjects (set : ProjectUpdate) (where_id : string).

Definition StoreResponse (c : StoreCall) : Type :=
  match c with
  | ProjectsFindFirst _ => option DbProject
  | _ => unit
  end.

Canonical Structure StoreE : Signature :=
  {| call := StoreCall; response := StoreResponse |}.

(** [get]; [None] is the [null] of the source. *)
Definition get (projectId : string) : Prog StoreE (option ProjectModel) :=
  project <~ await (ProjectsFindFirst projectId) ;;
  match project with
  | None => Log "project not found" (Ret None)
  | Some project => Ret (Some (toProject project))
  end.

(** The callback handed to [ctx.db.transaction] by [delete]. *)
Definition delete_callback (id : string) : Prog StoreE unit :=
  _ <~ await (DeleteProjects id) ;;
  _ <~ await (DeleteUserProjects id) ;;
  Ret tt.

(** [getPreviewProjects] *)
Definition getPreviewProjects (userId : string)
  : Prog QueryE (list ProjectModel) :=
  projects <~ await (UserProjectsFindMany userId) ;;
  Ret ((λ project, toProject (up_project project)) <$> projects).

(** [update] *)
Definition update (id : string) (project : ProjectUpdate)
  : Prog StoreE unit :=
  _ <~ await (UpdateProjects project id) ;;
  Ret tt.

(** *** The database under these calls *)

Definition with_projects (f : list DbProject → list DbProject)
    (d : Database) : Database :=
  {| projects := f (projects d); userProjects := userProjects d;
     canvases := canvases d; userCanvases := userCanvases d;
     frames := frames d; conversations := conversations d;
     projectCreateRequests := projectCreateRequests d |}.

Definition with_userProjects
    (f : list UserProjectRow → list UserProjectRow) (d : Database)
  : Database :=
  {| projects := projects d; userProjects := f (userProjects d);
     canvases := canvases d; userCanvases := userCanvases d;
     frames := frames d; conversations := conversations d;
     projectCreateRequests := projectCreateRequests d |}.

(** [delete from projects where id = ...]: the project rows that match are
    gone; the other tables are what the schema makes of them. *)
Definition delete_projects (id : string) (d : Database) : Database :=
  with_projects (λ _, filter (λ p, project_id p ≠ id) (projects d))
                (on_delete_projects id d).

(** [delete from user_projects where project_id = ...]: the join rows that
    match are gone and the project rows are as they were; the tables that
    reference neither are what the schema makes of them. *)
Definition delete_userProjects (id : string) (d : Database) : Database :=
  with_projects (λ _, projects d)
    (with_userProjects
       (λ _, filter (λ r, up_projectId r ≠ id) (userProjects d))
       (on_delete_userProjects id d)).

(** [update projects set ... where id = ...]: the project rows that match
    are rewritten; the other tables are what the schema makes of them. *)
Definition update_projects (set : ProjectUpdate) (id : string)
    (d : Database) : Database :=
  with_projects
    (λ _, (λ p, if decide (project_id p = id)
                then apply_update set p else p) <$> projects d)
    (on_update_projects set id d).

(** A statement that does not fail; [findFirst] gives the first row whose id
    is the one asked for. *)
Definition store_perform (c : StoreCall)
  : World → World * (JsError + response StoreE c) :=
  match c return World → World * (JsError + response StoreE c) with
  | ProjectsFindFirst id => λ w,
      (w, inr (head (filter (λ p, project_id p = id)
                            (projects (database w)))))
  | DeleteProjects id => λ w, (on_database (delete_projects id) w, inr tt)
  | DeleteUserProjects id => λ w,
      (on_database (delete_userProjects id) w, inr tt)
  | UpdateProjects set id => λ w,
      (on_database (update_projects set id) w, inr tt)
  end.

Section Handlers.
(** Whether a statement fails, and whether a commit fails: the database
    decides. *)
Variable store_fails : StoreCall → World → option JsError.
Variable store_commit_fails : World → option JsError.

Definition store_handler : Handler StoreE World :=
  λ c w,
    match store_fails c w with
    | Some e => (w, inl e)
    | None => store_perform c w
    end.

(** [ctx.db.transaction(callback)] over these calls, as [transaction] is
    over those of [create]. *)
Definition store_transaction {A} (callback : Prog StoreE A) (w : World)
  : World * list (TraceEntry StoreE) * (JsError + A) :=
  let '(w1, t, out) := run store_handler callback w in
  let rolled_back := {| database := database w; analytics := analytics w1 |} in
  match out with
  | inl e => (rolled_back, t, inl e)
  | inr a =>
      match store_commit_fails w1 with
      | Some e => (rolled_back, t, inl e)
      | None => (w1, t, inr a)
      end
  end.

(** [delete] *)
Definition delete (id : string) (w : World)
  : World * list (TraceEntry StoreE) * (JsError + unit) :=
  store_transaction (delete_callback id) w.

End Handlers.
End Store.
End ProjectStore.

(** ** project.ts: the steps of a creation that goes through *)

Module CreationSteps.
Import Project.

Section Steps.
Context `{OnlookDb}.
Local Open Scope list_scope.

(** The event that [create] sends for a project. *)
Definition creation_event (input : CreateInput) (newProject : DbProject)
  : TrackedEvent :=
  {| distinctId := input_userId input;
     event := "user_create_project";
     properties_projectId := project_id newProject |}.

(** The statements of a creation that goes through, in order. *)
Definition creation_calls (input : CreateInput) (newProject : DbProject)
  : list TxCall :=
  let newCanvas := createDefaultCanvas (project_id newProject) in
  [ InsertProjectReturning (input_project input);
    InsertUserProject {| up_userId := input_userId input;
                         up_projectId := project_id newProject;
                         up_role := OWNER |};
    InsertCanvas newCanvas;
    InsertUserCanvas
      (createDefaultUserCanvas (input_userId input) (canvas_id newCanvas));
    InsertFrame
      (createDefaultFrame (canvas_id newCanvas)
                          (sandboxUrl (input_project input)));
    InsertConversation (createDefaultConversation (project_id newProject)) ]
  ++ match input_creationData input with
     | Some creationData =>
         [ InsertProjectCreateRequest
             {| request_data := creationData;
                request_status := PENDING;
                request_projectId := project_id newProject |} ]
     | None => []
     end
  ++ [ TrackEvent (creation_event input newProject) ].

(** The database after a creation that goes through. *)
Definition created_database (input : CreateInput) (newProject : DbProject)
    (d : Database) : Database :=
  let newCanvas := createDefaultCanvas (project_id newProject) in
  let d6 :=
    add_conversation (createDefaultConversation (project_id newProject))
      (add_frame
         (createDefaultFrame (canvas_id newCanvas)
                             (sandboxUrl (input_project input)))
         (add_userCanvas
            (createDefaultUserCanvas (input_userId input)
                                     (canvas_id newCanvas))
            (add_canvas newCanvas
               (add_userProject
                  {| up_userId := input_userId input;
                     up_projectId := project_id newProject;
                     up_role := OWNER |}
                  (add_project newProject d))))) in
  match input_creationData input with
  | Some creationData =>
      add_projectCreateRequest
        {| request_data := creationData;
           request_status := PENDING;
           request_projectId := project_id newProject |} d6
  | None => d6
  end.

End Steps.
End CreationSteps.

(** ** More sample data *)

Module MoreSamples.
Import Stripe Usage UsageView Project ProjectStore Sample.

(** A phase whose item carries the expanded price object. *)
Definition item_expanded : PhaseItem :=
  {| item_price := PriceObject "price_pro"; item_quantity := Some 2 |}.

Definition phase_expanded : Phase :=
  {| phase_items := [item_expanded];
     start_date := 1748736000; end_date := 1751328000 |}.

Definition free_product : Product :=
  {| product_name := "Free"; product_type := FREE |}.

Definition pro_product : Product :=
  {| product_name := "Pro"; product_type := other_product_type "pro" |}.

Definition subscribed_to_pro : SubscriptionData :=
  {| data_product := Some pro_product;
     data_subscription := {| scheduledChange := Some cancellation |} |}.

Definition sample_usage : UsageData :=
  {| daily := Some {| usage := {| usageCount := 1; limitCount := 4 |};
                      period := "day" |};
     monthly := Some {| usage := {| usageCount := 30; limitCount := 40 |};
                        period := "month" |} |}.

Definition daily_only : UsageData :=
  {| daily := Some {| usage := {| usageCount := 3; limitCount := 5 |};
                      period := "day" |};
     monthly := None |}.

(** A schema in which an update sets a new sandbox address, and in which
    the join rows, canvases and conversations of a deleted project go with
    it. *)
Global Instance schema : ProjectSchema :=
  {| ProjectUpdate := string;
     apply_update := λ url p,
       {| row_id := row_id p; row_sandboxUrl := url;
          row_updatedAt := row_updatedAt p |};
     on_delete_projects := λ id d,
       {| projects := projects d;
          userProjects := filter (λ r, up_projectId r ≠ id) (userProjects d);
          canvases := filter (λ c, canvas_projectId c ≠ id) (canvases d);
          userCanvases := userCanvases d;
          frames := frames d;
          conversations :=
            filter (λ c, conversation_projectId c ≠ id) (conversations d);
          projectCreateRequests := projectCreateRequests d |};
     on_delete_userProjects := λ _ d, d;
     on_update_projects := λ _ _ d, d |}.

(** Two projects updated at the same instant, between two others. *)
Definition notes : ProjectRow :=
  {| row_id := "p4"; row_sandboxUrl := "https://d.example";
     row_updatedAt := 1750000000000 |}.

Definition store_with_ties : Store :=
  {| store_userProjects :=
       [owned "ann" blog; owned "ann" notes; owned "ann" shop;
        owned "ann" wiki];
     store_projects := [] |}.

(** A database in which nothing fails. *)
Definition never_fails : StoreCall → World → option JsError := λ _ _, None.
Definition commit_goes_through : World → option JsError := λ _, None.

(** A database whose commit fails, and one whose insert returns no row. *)
Definition failing_commit : Environment :=
  {| fails := λ _ _, None;
     commit_fails := λ _, Some (Error "could not serialize access");
     stored_project := λ _ values, Some values |}.

Definition no_row_returned : Environment :=
  {| fails := λ _ _, None;
     commit_fails := λ _, None;
     stored_project := λ _ _, None |}.

(** A database that refuses the default frame. *)
Definition refuses_frames : Environment :=
  {| fails := λ c _,
       match c with
       | InsertFrame _ => Some (Error "violates foreign key constraint")
       | _ => None
       end;
     commit_fails := λ _, None;
     stored_project := λ _ values, Some values |}.

End MoreSamples.

(** * Properties *)

(** One step of a run: the next call gets the answer that a hypothesis
    records. *)
Ltac answer_with H := cbn [bind await run]; rewrite H; cbn [bind await run].

(** ** Programs *)

Section Programs.
Context {E : Signature} {W : Type} (h : Handler E W).

(** A run of [x <~ p ;; f x] is a run of [p], followed, when [p] returns,
    by a run of [f] from where [p] left the environment. *)
Lemma run_bind {A B} (p : Prog E A) (f : A → Prog E B) (w : W) :
  run h (bind p f) w
  = match run h p w with
    | (w1, t1, inl e) => (w1, t1, inl e)
    | (w1, t1, inr a) =>
        let '(w2, t2, out) := run h (f a) w1 in (w2, (t1 ++ t2)%list, out)
    end.
Proof.
  revert w. induction p as [a|e|c k IH|m k IH]; intros w; cbn [bind run].
  - by destruct (run h (f a) w) as [[w2 t2] out].
  - done.
  - destruct (h c w) as [w1 r]. rewrite IH.
    destruct (run h (k r) w1) as [[w2 t] [e|a]]; [done|].
    by destruct (run h (f a) w2) as [[w3 t2] out].
  - rewrite IH.
    destruct (run h k w) as [[w2 t] [e|a]]; [done|].
    by destruct (run h (f a) w2) as [[w3 t2] out].
Qed.

(** A [try] whose [catch] logs and returns a value never throws, whatever
    the environment answers. *)
Lemma run_try_catch_returns {A} (p : Prog E A) (msg : string) (d : A) (w : W) :
  ∃ a, (run h (try_catch p (λ _, Log msg (Ret d))) w).2 = inr a.
Proof.
  revert w. induction p as [a|e|c k IH|m k IH]; intros w;
    cbn [try_catch run].
  - by exists a.
  - by exists d.
  - destruct (h c w) as [w1 r]. destruct (IH r w1) as [a Ha]. exists a.
    by destruct (run h _ w1) as [[w2 t] out].
  - destruct (IH w) as [a Ha]. exists a.
    by destruct (run h _ w) as [[w2 t] out].
Qed.

End Programs.

(** ** Tier comparison *)

Section TierComparison.
Import Stripe.

(** C3: [isTierUpgrade a b] is true exactly when the candidate's monthly
    message limit is greater than the current one's, and it is false when the
    two limits are equal. *)
Theorem isTierUpgrade_iff_limit_greater (a b : Price) :
  (isTierUpgrade a b = true ↔ monthlyMessageLimit b > monthlyMessageLimit a)
  ∧ (monthlyMessageLimit b = monthlyMessageLimit a → isTierUpgrade a b = false).
Proof.
  unfold isTierUpgrade. rewrite Z.gtb_ltb. split.
  - rewrite Z.ltb_lt. lia.
  - intros ->. apply Z.ltb_irrefl.
Qed.

Lemma isTierUpgrade_iff_limit_greater_witness :
  isTierUpgrade {| monthlyMessageLimit := 100 |}
                {| monthlyMessageLimit := 500 |} = true
  ∧ isTierUpgrade {| monthlyMessageLimit := 100 |}
                  {| monthlyMessageLimit := 100 |} = false.
Proof.
  split.
  - apply (isTierUpgrade_iff_limit_greater {| monthlyMessageLimit := 100 |}
             {| monthlyMessageLimit := 500 |}).
    simpl. lia.
  - apply (isTierUpgrade_iff_limit_greater {| monthlyMessageLimit := 100 |}
             {| monthlyMessageLimit := 100 |}).
    reflexivity.
Defined.

(** C8: [isTierUpgrade] is irreflexive and antisymmetric: no price is an
    upgrade of itself, two prices are never upgrades of each other, and with
    equal limits neither is an upgrade of the other. *)
Theorem isTierUpgrade_irreflexive_antisymmetric :
  (∀ a : Price, isTierUpgrade a a = false)
  ∧ (∀ a b : Price,
        ¬ (isTierUpgrade a b = true ∧ isTierUpgrade b a = true))
  ∧ (∀ a b : Price,
        monthlyMessageLimit a = monthlyMessageLimit b →
        isTierUpgrade a b = false ∧ isTierUpgrade b a = false).
Proof.
  unfold isTierUpgrade. repeat split.
  - intros a. rewrite Z.gtb_ltb. apply Z.ltb_irrefl.
  - intros a b [Hab Hba]. rewrite Z.gtb_ltb, Z.ltb_lt in Hab, Hba. lia.
  - rewrite H, Z.gtb_ltb. apply Z.ltb_irrefl.
  - rewrite H, Z.gtb_ltb. apply Z.ltb_irrefl.
Qed.

Lemma isTierUpgrade_irreflexive_antisymmetric_witness :
  isTierUpgrade {| monthlyMessageLimit := 50 |}
                {| monthlyMessageLimit := 50 |} = false
  ∧ ¬ (isTierUpgrade {| monthlyMessageLimit := 50 |}
                     {| monthlyMessageLimit := 200 |} = true
       ∧ isTierUpgrade {| monthlyMessageLimit := 200 |}
                       {| monthlyMessageLimit := 50 |} = true).
Proof.
  destruct isTierUpgrade_irreflexive_antisymmetric
    as (_ & Hantisymmetric & Hequal).
  split.
  - apply (Hequal {| monthlyMessageLimit := 50 |}
             {| monthlyMessageLimit := 50 |}).
    reflexivity.
  - apply (Hantisymmetric {| monthlyMessageLimit := 50 |}
             {| monthlyMessageLimit := 200 |}).
Defined.

End TierComparison.

(** ** The schedule workflow *)

Section ScheduleWorkflow.
Import Stripe.
Context {W : Type} (h : Handler StripeE W).

(** C1: when the schedule created in step 1 has a phase 0 with an item 0
    whose price is a non-empty identifier, the workflow sends one update for
    that schedule with exactly two phases, the first with the current price,
    quantity, start date and end date, the second with only the target price
    at quantity 1 and [iterations = 1], and returns what the update answers. *)
Theorem updateSubscriptionNextPeriod_two_phases
    (w0 w1 w2 w3 : W) (stripe : StripeClient) (schedule : Schedule)
    (currentPhase : Phase) (currentItem : PhaseItem)
    (currentPriceId subscriptionId priceId : string)
    (answer : JsError + Schedule) :
  h CreateStripeClient w0 = (w1, inr stripe) →
  h (SubscriptionSchedulesCreate stripe subscriptionId) w1
    = (w2, inr schedule) →
  phases schedule !! 0%nat = Some currentPhase →
  phase_items currentPhase !! 0%nat = Some currentItem →
  item_price currentItem = PriceId currentPriceId →
  currentPriceId ≠ "" →
  let update :=
    SubscriptionSchedulesUpdate stripe (schedule_id schedule)
      {| param_phases :=
           [ {| param_items :=
                  [ {| param_price := currentPriceId;
                       param_quantity := item_quantity currentItem |} ];
                param_start_date := Some (start_date currentPhase);
                param_end_date := Some (end_date currentPhase);
                param_iterations := None |};
             {| param_items :=
                  [ {| param_price := priceId; param_quantity := Some 1 |} ];
                param_start_date := None;
                param_end_date := None;
                param_iterations := Some 1 |} ] |} in
  h update w2 = (w3, answer) →
  run h (updateSubscriptionNextPeriod subscriptionId priceId) w0
  = (w3,
     [ Called CreateStripeClient (inr stripe);
       Called (SubscriptionSchedulesCreate stripe subscriptionId)
         (inr schedule);
       Called update answer ],
     answer).
Proof.
  intros Hclient Hcreate Hphase Hitem Hprice Hne update Hupdate.
  unfold updateSubscriptionNextPeriod.
  answer_with Hclient. answer_with Hcreate.
  rewrite Hphase, Hitem, Hprice. cbn [price_toString].
  destruct currentPriceId as [|c rest]; [done|].
  cbn [string_truthy negb]. fold update. answer_with Hupdate.
  destruct answer; reflexivity.
Qed.

(** C2: each of the three absences (no phase 0, no item 0 in it, an empty
    current price) makes the workflow throw an error of its own, after the
    two calls of step 1 and without any update call; a schedule with zero
    phases gives the "no current phase" error. *)
Theorem updateSubscriptionNextPeriod_absent_errors
    (w0 w1 w2 : W) (stripe : StripeClient) (schedule : Schedule)
    (subscriptionId priceId : string) :
  h CreateStripeClient w0 = (w1, inr stripe) →
  h (SubscriptionSchedulesCreate stripe subscriptionId) w1
    = (w2, inr schedule) →
  let step1 :=
    [ Called CreateStripeClient (inr stripe);
      Called (SubscriptionSchedulesCreate stripe subscriptionId)
        (inr schedule) ] in
  let result := run h (updateSubscriptionNextPeriod subscriptionId priceId) w0 in
  no_update_call step1
  ∧ (phases schedule = [] →
       result = (w2, step1, inl (Error "No current phase found")))
  ∧ (∀ currentPhase,
       phases schedule !! 0%nat = Some currentPhase →
       phase_items currentPhase !! 0%nat = None →
       result = (w2, step1, inl (Error "No current item found")))
  ∧ (∀ currentPhase currentItem,
       phases schedule !! 0%nat = Some currentPhase →
       phase_items currentPhase !! 0%nat = Some currentItem →
       price_toString (item_price currentItem) = "" →
       result = (w2, step1, inl (Error "No current price found")))
  ∧ Error "No current phase found" ≠ Error "No current item found"
  ∧ Error "No current phase found" ≠ Error "No current price found"
  ∧ Error "No current item found" ≠ Error "No current price found".
Proof.
  intros Hclient Hcreate step1 result. subst result.
  unfold updateSubscriptionNextPeriod.
  answer_with Hclient. answer_with Hcreate.
  repeat split; try discriminate.
  - intros s id params answer Hin. subst step1.
    rewrite !elem_of_cons, elem_of_nil in Hin.
    destruct Hin as [Hin|[Hin|[]]]; inversion Hin.
  - intros ->. reflexivity.
  - intros currentPhase -> ->. reflexivity.
  - intros currentPhase currentItem -> -> ->. reflexivity.
Qed.

End ScheduleWorkflow.

(** The workflow on the in-memory provider: a subscription on one plan, moved
    to another plan from the next period on; and three malformed schedules. *)
Section ScheduleWorkflowRuns.
Import Stripe.

Lemma updateSubscriptionNextPeriod_two_phases_witness :
  ∃ w schedule answer,
    run provider (updateSubscriptionNextPeriod "sub_1" "price_max")
        (provider_with "sub_1" [phase_pro])
    = (w,
       [ Called CreateStripeClient (inr (stripe_client 1));
         Called (SubscriptionSchedulesCreate (stripe_client 1) "sub_1")
           (inr schedule);
         Called
           (SubscriptionSchedulesUpdate (stripe_client 1) "sub_sched_sub_1"
              {| param_phases :=
                   [ {| param_items :=
                          [ {| param_price := "price_pro";
                               param_quantity := Some 1 |} ];
                        param_start_date := Some 1748736000;
                        param_end_date := Some 1751328000;
                        param_iterations := None |};
                     {| param_items :=
                          [ {| param_price := "price_max";
                               param_quantity := Some 1 |} ];
                        param_start_date := None;
                        param_end_date := None;
                        param_iterations := Some 1 |} ] |})
           answer ],
       answer).
Proof.
  epose proof (updateSubscriptionNextPeriod_two_phases provider
                 (provider_with "sub_1" [phase_pro]) _ _ _ _ _
                 phase_pro item_pro "price_pro" "sub_1" "price_max" _
                 eq_refl eq_refl eq_refl eq_refl eq_refl
                 ltac:(discriminate) eq_refl) as Hrun.
  eexists _, _, _. exact Hrun.
Defined.

Lemma updateSubscriptionNextPeriod_absent_errors_witness :
  (run provider (updateSubscriptionNextPeriod "sub_1" "price_max")
       (provider_with "sub_1" [])).2
  = inl (Error "No current phase found")
  ∧ (run provider (updateSubscriptionNextPeriod "sub_1" "price_max")
         (provider_with "sub_1" [phase_without_items])).2
    = inl (Error "No current item found")
  ∧ (run provider (updateSubscriptionNextPeriod "sub_1" "price_max")
         (provider_with "sub_1" [phase_without_price])).2
    = inl (Error "No current price found").
Proof.
  split; [|split].
  - epose proof (updateSubscriptionNextPeriod_absent_errors provider
                   (provider_with "sub_1" []) _ _ _ _ "sub_1" "price_max"
                   eq_refl eq_refl) as (_ & Hphase & _).
    rewrite Hphase; reflexivity.
  - epose proof (updateSubscriptionNextPeriod_absent_errors provider
                   (provider_with "sub_1" [phase_without_items]) _ _ _ _
                   "sub_1" "price_max" eq_refl eq_refl)
      as (_ & _ & Hitem & _).
    rewrite (Hitem phase_without_items); reflexivity.
  - epose proof (updateSubscriptionNextPeriod_absent_errors provider
                   (provider_with "sub_1" [phase_without_price]) _ _ _ _
                   "sub_1" "price_max" eq_refl eq_refl)
      as (_ & _ & _ & Hprice & _).
    rewrite (Hprice phase_without_price item_without_price); reflexivity.
Defined.

End ScheduleWorkflowRuns.

(** ** The usage section *)

Section UsagePercent.
Import Usage.

(** A limit that compares equal to zero (either zero of the format) is not
    greater than zero. *)
Lemma zero_limit_not_positive (l : float) :
  (l =? 0)%float = true → (0 <? l)%float = false.
Proof.
  rewrite FloatAxioms.eqb_spec, FloatAxioms.ltb_spec.
  change (Prim2SF 0) with (S754_zero false).
  destruct (Prim2SF l) as [s| s| |s m e]; try destruct s; try discriminate;
    reflexivity.
Qed.

(** Two numbers on different sides of [< 0] are different numbers. *)
Lemma negative_not_zero (x y : float) :
  (x <? 0)%float = true → (y <? 0)%float = false → x ≠ y.
Proof. intros Hx Hy ->. congruence. Qed.

(** C6, as the code has it: the percentage is 0 whenever the limit is not
    greater than 0, in particular whenever it is 0, whatever the usage count;
    it is [usageCount / limitCount * 100] whenever the limit is greater than
    0; and it is exactly 25 for a count of 25 and a limit of 100. *)
Theorem usagePercent_guarded (usage : UsageBucket) :
  ((limitCount usage =? 0)%float = true → usagePercent usage = 0%float)
  ∧ ((0 <? limitCount usage)%float = false → usagePercent usage = 0%float)
  ∧ ((0 <? limitCount usage)%float = true →
       usagePercent usage
       = (usageCount usage / limitCount usage * 100)%float)
  ∧ usagePercent {| usageCount := 25; limitCount := 100 |} = 25%float.
Proof.
  unfold usagePercent. split; [|split; [|split]].
  - intros Hzero. by rewrite (zero_limit_not_positive _ Hzero).
  - by intros ->.
  - by intros ->.
  - reflexivity.
Qed.

Lemma usagePercent_guarded_witness :
  usagePercent {| usageCount := 7; limitCount := 0 |} = 0%float
  ∧ usagePercent {| usageCount := 7; limitCount := (-0)%float |} = 0%float
  ∧ usagePercent {| usageCount := 7; limitCount := (-4)%float |} = 0%float
  ∧ usagePercent {| usageCount := 30; limitCount := 40 |} = 75%float.
Proof.
  split; [|split; [|split]].
  - apply (proj1 (usagePercent_guarded
                    {| usageCount := 7; limitCount := 0 |})).
    reflexivity.
  - apply (proj1 (usagePercent_guarded
                    {| usageCount := 7; limitCount := (-0)%float |})).
    reflexivity.
  - apply (proj1 (proj2 (usagePercent_guarded
                           {| usageCount := 7; limitCount := (-4)%float |}))).
    reflexivity.
  - apply (proj1 (proj2 (proj2 (usagePercent_guarded
                                  {| usageCount := 30; limitCount := 40 |})))).
    reflexivity.
Defined.

(** C6, as stated, fails at a negative limit: with a count of 1 and a limit
    of -4 the limit is not 0 and [usageCount / limitCount * 100] is -25, but
    the percentage is 0. *)
Lemma usagePercent_negative_limit_counterexample :
  let usage := {| usageCount := 1; limitCount := (-4)%float |} in
  (limitCount usage =? 0)%float = false
  ∧ (usageCount usage / limitCount usage * 100)%float = (-25)%float
  ∧ usagePercent usage = 0%float
  ∧ usagePercent usage ≠ (usageCount usage / limitCount usage * 100)%float.
Proof.
  repeat split. apply not_eq_sym, negative_not_zero; reflexivity.
Qed.

End UsagePercent.

Section ScheduledChangeMessage.
Import Stripe Usage.

Lemma string_app_assoc (a b c : string) : (a +:+ b) +:+ c = a +:+ b +:+ c.
Proof.
  induction a as [|x a IH]; [reflexivity|].
  change (String x ((a +:+ b) +:+ c) = String x (a +:+ b +:+ c)).
  by rewrite IH.
Qed.

Lemma string_app_nil_r (a : string) : a +:+ "" = a.
Proof.
  induction a as [|x a IH]; [reflexivity|].
  change (String x (a +:+ "") = String x a).
  by rewrite IH.
Qed.

Lemma includes_prefix_of_suffix (a s b : string) : includes (a +:+ s +:+ b) s.
Proof. by exists a, b. Qed.

Lemma includes_suffix (a s : string) : includes (a +:+ s) s.
Proof. exists a, "". by rewrite string_app_nil_r. Qed.

Variable toLocaleDateString : Date → string.

(** C7: a scheduled price change with a target price renders a message that
    contains the target's monthly message limit and the formatted date of
    the change; a scheduled cancellation renders a message that says the
    subscription ends on the formatted date; without a scheduled action
    nothing is rendered. *)
Theorem getSubscriptionChangeMessage_cases :
  (∀ change target,
      scheduledAction change = Some PRICE_CHANGE →
      price change = Some target →
      ∃ message,
        getSubscriptionChangeMessage toLocaleDateString
          (Some {| scheduledChange := Some change |})
        = Some (Div "text-amber text-mini text-balance" message)
        ∧ includes message (pretty (monthlyMessageLimit target))
        ∧ includes message (toLocaleDateString (scheduledChangeAt change)))
  ∧ (∀ change,
      scheduledAction change = Some CANCELLATION →
      getSubscriptionChangeMessage toLocaleDateString
        (Some {| scheduledChange := Some change |})
      = Some (Div "text-amber text-mini text-balance"
                ("Your subscription will end on "
                 +:+ toLocaleDateString (scheduledChangeAt change))))
  ∧ (∀ subscription : option Subscription,
      (subscription ≫= scheduledChange) ≫= scheduledAction = None →
      getSubscriptionChangeMessage toLocaleDateString subscription = None).
Proof.
  unfold getSubscriptionChangeMessage, changeMessageText.
  split; [|split].
  - intros change target Haction Hprice.
    exists ("Your " +:+ pretty (monthlyMessageLimit target)
            +:+ " messages a month plan starts on "
            +:+ toLocaleDateString (scheduledChangeAt change)).
    split; [|split].
    + cbn. rewrite Haction, Hprice. reflexivity.
    + apply includes_prefix_of_suffix.
    + rewrite <- !string_app_assoc. apply includes_suffix.
  - intros change Haction. cbn. rewrite Haction.
    destruct (price change); reflexivity.
  - intros [[[change|]]|]; cbn; try done.
    intros ->. reflexivity.
Qed.

End ScheduledChangeMessage.

Section ScheduledChangeMessageRuns.
Import Stripe Usage.

Lemma getSubscriptionChangeMessage_cases_witness :
  (∃ message,
      getSubscriptionChangeMessage day_number
        (Some {| scheduledChange := Some change_to_pro |})
      = Some (Div "text-amber text-mini text-balance" message)
      ∧ includes message "500" ∧ includes message "day 20270")
  ∧ getSubscriptionChangeMessage day_number
      (Some {| scheduledChange := Some cancellation |})
    = Some (Div "text-amber text-mini text-balance"
              "Your subscription will end on day 20270")
  ∧ getSubscriptionChangeMessage day_number
      (Some {| scheduledChange := None |}) = None.
Proof.
  destruct (getSubscriptionChangeMessage_cases day_number)
    as (Hchange & Hcancel & Hnone).
  split; [|split].
  - apply (Hchange change_to_pro {| monthlyMessageLimit := 500 |});
      reflexivity.
  - apply (Hcancel cancellation). reflexivity.
  - apply (Hnone (Some {| scheduledChange := None |})). reflexivity.
Defined.

End ScheduledChangeMessageRuns.

(** ** Project name generation *)

Section GenerateName.
Import Project.
Context {W : Type} (h : Handler AiE W).

(** C5: [generateName] always returns a name and never throws. The name is
    'New Project' when a call to the language model throws, when the trimmed
    text is empty and when it is longer than 50; otherwise it is the trimmed
    text, which is then non-empty and at most 50 long. *)
Theorem generateName_falls_back (w : W) (prompt : jsstring) :
  ∃ name,
    (run h (generateName prompt) w).2 = inr name
    ∧ match generated_text h w prompt with
      | inl _ => name = js "New Project"
      | inr generated =>
          (trim generated = [] ∨ (50 < length (trim generated))%nat →
             name = js "New Project")
          ∧ (trim generated ≠ [] ∧ (length (trim generated) ≤ 50)%nat →
               name = trim generated)
      end.
Proof.
  unfold generateName, generated_text.
  cbn [try_catch bind await run].
  destruct (h (InitModel OPENROUTER OPEN_AI_GPT_4_1_NANO) w)
    as [w1 [e|config]]; cbn [try_catch bind await run].
  { by exists (js "New Project"). }
  destruct (h (GenerateText _) w1) as [w2 [e|result]];
    cbn [try_catch bind await run].
  { by exists (js "New Project"). }
  unfold MAX_NAME_LENGTH.
  destruct (trim (text result)) as [|c rest] eqn:Htrim.
  { exists (js "New Project"). split; [done|]. split; [done|]. by intros []. }
  assert (Hpos : (0 <? length (c :: rest))%nat = true)
    by (apply Nat.ltb_lt; cbn [length]; lia).
  rewrite Hpos. cbn [andb].
  destruct (Nat.leb_spec (length (c :: rest)) 50) as [Hle|Hgt];
    cbn [try_catch run].
  - exists (c :: rest). split; [done|]. split; [|done].
    intros [|]; [done|]. lia.
  - exists (js "New Project"). split; [done|]. split; [done|].
    intros []. lia.
Qed.

End GenerateName.

(** ** Sorting by a numeric key, newest first *)

Section SortDescending.
Import Project.
Context {A : Type} (key : A → jsnumber).

Lemma sort_insert_Permutation (cmp : A → A → jsnumber) (x : A) (l : list A) :
  sort_insert cmp x l ≡ₚ x :: l.
Proof.
  induction l as [|y l IH]; cbn [sort_insert]; [done|].
  destruct (sort_before cmp x y); [done|].
  rewrite IH. apply Permutation_swap.
Qed.

Lemma array_sort_Permutation (cmp : A → A → jsnumber) (l : list A) :
  array_sort cmp l ≡ₚ l.
Proof.
  induction l as [|x l IH]; [done|].
  unfold array_sort in *. cbn [foldr].
  by rewrite sort_insert_Permutation, IH.
Qed.

Lemma not_before_trans (a b c : A) :
  not_before key a b → not_before key b c → not_before key a c.
Proof.
  intros (ka & kb & Ha & Hb & Hab) (kb' & kc & Hb' & Hc & Hbc).
  exists ka, kc. repeat split; try done.
  assert (kb = kb') by congruence. lia.
Qed.

Lemma sort_insert_sorted (x : A) (l : list A) :
  is_Some (key x) →
  Forall (λ y, is_Some (key y)) l →
  StronglySorted (not_before key) l →
  StronglySorted (not_before key)
    (sort_insert (λ a b, number_sub (key b) (key a)) x l).
Proof.
  intros [kx Hx] Hkeys Hsorted.
  induction Hsorted as [|y l Hl IH Hy]; cbn [sort_insert].
  { repeat constructor. }
  apply Forall_cons in Hkeys as [[ky Hky] Hkeys].
  unfold sort_before, number_sub at 1. rewrite Hx, Hky.
  destruct (Z.leb_spec (ky - kx) 0) as [Hle|Hgt].
  - assert (Hxy : not_before key x y).
    { exists kx, ky. repeat split; try done. lia. }
    constructor; [by constructor|].
    constructor; [done|].
    eapply Forall_impl; [exact Hy|].
    intros z Hz. by eapply not_before_trans.
  - constructor; [by apply IH|].
    rewrite sort_insert_Permutation. constructor; [|done].
    exists ky, kx. repeat split; try done. lia.
Qed.

Lemma array_sort_sorted (l : list A) :
  Forall (λ y, is_Some (key y)) l →
  StronglySorted (not_before key)
    (array_sort (λ a b, number_sub (key b) (key a)) l).
Proof.
  induction l as [|x l IH]; intros Hkeys.
  { constructor. }
  apply Forall_cons in Hkeys as [Hx Hkeys].
  unfold array_sort in *. cbn [foldr].
  apply sort_insert_sorted; [done| |by apply IH].
  fold (array_sort (λ a b, number_sub (key b) (key a)) l).
  by rewrite array_sort_Permutation.
Qed.

End SortDescending.

(** ** The project queries *)

Section ProjectQueries.
Import Project.
Context `{OnlookDb} {W : Type} (h : Handler QueryE W).

(** C9: [list] asks for the join rows of the calling user and returns their
    projects, each exactly once, ordered by [updatedAt] with the most
    recently updated first (every [updatedAt] being a valid date). *)
Theorem project_list_newest_first
    (w w1 : W) (ctx_user_id : string) (rows : list UserProjectWithProject) :
  h (UserProjectsFindMany ctx_user_id) w = (w1, inr rows) →
  Forall (λ row, is_Some (updatedAt_getTime (toProject (up_project row))))
         rows →
  ∃ result,
    run h (project_list ctx_user_id) w
    = (w1, [Called (UserProjectsFindMany ctx_user_id) (inr rows)], inr result)
    ∧ result ≡ₚ (λ row, toProject (up_project row)) <$> rows
    ∧ StronglySorted (not_before updatedAt_getTime) result.
Proof.
  intros Hquery Hvalid. unfold project_list. answer_with Hquery.
  eexists. split; [reflexivity|]. split.
  - apply array_sort_Permutation.
  - apply (array_sort_sorted updatedAt_getTime).
    by apply Forall_fmap.
Qed.

(** C10: for a project that exists, [getFullProject] returns an object with
    the properties [project], [userCanvas], [frames] and [conversations] and
    no other, so none named [canvas]; the user canvas is the user's stored
    row or else a default one, made for the stored canvas or else for a
    default canvas of the project, which is used for its id only; the frames
    are those of the stored canvas, or none without a canvas; the
    conversations are the stored ones. The result is [null] only when the
    project is missing. *)
Theorem getFullProject_defaults
    (w w1 : W) (ctx_user_id projectId : string)
    (found : option ProjectWithRelations) :
  h (ProjectsFindFirstFull projectId ctx_user_id) w = (w1, inr found) →
  ∃ result,
    (run h (getFullProject ctx_user_id projectId) w).2 = inr result
    ∧ (result = None ↔ found = None)
    ∧ ∀ project, found = Some project →
        ∃ full,
          result = Some full
          ∧ (own_properties full).*1
            = ["project"; "userCanvas"; "frames"; "conversations"]%list
          ∧ property full "canvas" = None
          ∧ full_project full = toProject (pr_project project)
          ∧ full_conversations full
            = toConversation <$> pr_conversations project
          ∧ match pr_canvas project with
            | Some stored =>
                full_frames full = toFrame <$> cv_frames stored
                ∧ full_userCanvas full
                  = toCanvas
                      match cv_userCanvases stored with
                      | userCanvas :: _ => userCanvas
                      | [] =>
                          createDefaultUserCanvas ctx_user_id
                            (canvas_id (cv_canvas stored))
                      end
            | None =>
                full_frames full = []
                ∧ full_userCanvas full
                  = toCanvas
                      (createDefaultUserCanvas ctx_user_id
                         (canvas_id
                            (createDefaultCanvas
                               (project_id (pr_project project)))))
            end.
Proof.
  intros Hquery. unfold getFullProject. answer_with Hquery.
  destruct found as [project|]; cbn [run snd].
  - eexists. split; [reflexivity|]. split; [done|].
    intros ? [= <-]. eexists. split; [reflexivity|].
    split; [done|]. split; [done|].
    cbn. repeat split.
    destruct (pr_canvas project) as [stored|]; cbn; [|done].
    split; [done|]. by destruct (cv_userCanvases stored).
  - exists None. repeat split; done.
Qed.

End ProjectQueries.

(** ** Project creation *)

Section ProjectCreation.
Import Project.
Local Open Scope list_scope.
Context `{OnlookDb} (env : Environment).


End ProjectCreation.

(** ** Runs on sample data *)

Section SampleRuns.
Import Project Sample.

Lemma project_list_newest_first_witness :
  ∃ result,
    (run store (project_list "ann") sample_store).2 = inr result
    ∧ result ≡ₚ [blog; shop; wiki]
    ∧ StronglySorted (not_before updatedAt_getTime) result.
Proof.
  destruct (project_list_newest_first store sample_store sample_store "ann"
              [owned "ann" blog; owned "ann" shop; owned "ann" wiki])
    as (result & Hrun & Hperm & Hsorted).
  - reflexivity.
  - repeat constructor; by eexists.
  - exists result. rewrite Hrun. done.
Defined.

Example project_list_sample :
  (run store (project_list "ann") sample_store).2 = inr [shop; wiki; blog].
Proof. reflexivity. Qed.

Lemma getFullProject_defaults_witness :
  (run store (getFullProject "ann" "p1") sample_store).2
  = inr (Some {| full_project := blog;
                 full_userCanvas :=
                   {| uc_userId := "ann"; uc_canvasId := "canvas-p1" |};
                 full_frames := [];
                 full_conversations := [] |})
  ∧ (run store (getFullProject "ann" "p9") sample_store).2 = inr None.
Proof.
  split.
  - destruct (getFullProject_defaults store sample_store sample_store
                "ann" "p1" (Some blog_without_canvas) eq_refl)
      as (result & Hrun & _ & Hfull).
    destruct (Hfull _ eq_refl)
      as ([p uc fs cs] & -> & _ & _ & Hp & Hcs & Hfs & Huc).
    cbn in Hp, Hcs, Hfs, Huc. rewrite Hrun. by subst.
  - destruct (getFullProject_defaults store sample_store sample_store
                "ann" "p9" None eq_refl) as (result & Hrun & Hnull & _).
    rewrite Hrun. by rewrite (proj2 Hnull eq_refl).
Defined.

(** C10, as stated, fails at the canvas: the object returned for a project
    stored without a canvas has no [canvas] property, so reading it gives
    [undefined]; the default canvas made for the project shows only as the
    canvas id of the user canvas. *)
Lemma getFullProject_no_canvas_property_counterexample :
  ∃ full,
    pr_canvas blog_without_canvas = None
    ∧ (run store (getFullProject "ann" "p1") sample_store).2
      = inr (Some full)
    ∧ (own_properties full).*1
      = ["project"; "userCanvas"; "frames"; "conversations"]%list
    ∧ property full "canvas" = None
    ∧ property full "userCanvas"
      = Some (CanvasValue
                {| uc_userId := "ann";
                   uc_canvasId :=
                     canvas_id (createDefaultCanvas "p1") |}).
Proof. eexists. by split_and!. Qed.

Example getFullProject_sample_stored_canvas :
  (run store (getFullProject "ann" "p2") sample_store).2
  = inr (Some {| full_project := shop;
                 full_userCanvas :=
                   {| uc_userId := "ann"; uc_canvasId := "c2" |};
                 full_frames := [ {| frame_canvasId := "c2";
                                     frame_url := "https://b.example" |} ];
                 full_conversations :=
                   [ {| conversation_projectId := "p2" |} ] |}).
Proof. reflexivity. Qed.

Lemma generateName_falls_back_witness :
  (run scripted_model (generateName (js "a recipe app"))
       [inr (js "  Recipe Box ")]).2 = inr (js "Recipe Box")
  ∧ (run scripted_model (generateName (js "a recipe app"))
         [inl (Error "rate limited")]).2 = inr (js "New Project")
  ∧ (run scripted_model (generateName (js "a recipe app"))
         [inr (js "   ")]).2 = inr (js "New Project").
Proof.
  split; [|split].
  - destruct (generateName_falls_back scripted_model
                [inr (js "  Recipe Box ")] (js "a recipe app"))
      as (name & -> & Hname).
    f_equal. apply Hname. split; [discriminate|]. vm_compute. lia.
  - destruct (generateName_falls_back scripted_model
                [inl (Error "rate limited")] (js "a recipe app"))
      as (name & -> & Hname).
    f_equal. exact Hname.
  - destruct (generateName_falls_back scripted_model
                [inr (js "   ")] (js "a recipe app"))
      as (name & -> & Hname).
    f_equal. apply Hname. by left.
Defined.

Example trim_sample :
  trim [0x20; 0xFEFF; 0x41; 0x20; 0x42; 0x2028; 0xA]%N = [0x41; 0x20; 0x42]%N
  ∧ trim (js "Recipe Box") = js "Recipe Box"
  ∧ trim [0x9; 0x3000]%N = [].
Proof. repeat split. Qed.

Example generateName_sample_too_long :
  (run scripted_model (generateName (js "a recipe app"))
       [inr (js "A Very Long Name For A Project That Goes On And On Forever")]).2
  = inr (js "New Project").
Proof. reflexivity. Qed.



Example create_sample_commits :
  let '(w, _, out) :=
    create strict_environment (sample_input (Some "prompt")) empty_world in
  out = inr blog
  ∧ projects (database w) = [blog]
  ∧ userProjects (database w)
    = [ {| up_userId := "ann"; up_projectId := "p1"; up_role := OWNER |} ]
  ∧ canvases (database w)
    = [ {| canvas_row_id := "canvas-p1"; canvas_projectId := "p1" |} ]
  ∧ projectCreateRequests (database w)
    = [ {| request_data := "prompt"; request_status := PENDING;
           request_projectId := "p1" |} ].
Proof. repeat split. Qed.

Example create_sample_rolls_back :
  let '(w, _, out) :=
    create strict_environment (sample_input (Some "refused")) empty_world in
  out = inl (Error "violates check constraint")
  ∧ database w = database empty_world.
Proof. repeat split. Qed.

End SampleRuns.

(** * Further properties *)

(** ** The schedule workflow: what it calls, and when *)

Section ScheduleWorkflowCalls.
Import Stripe.
Context {W : Type} (h : Handler StripeE W).

(** X1: whatever the provider answers, [updateSubscriptionNextPeriod] creates
    the client, then at most creates the schedule, then at most updates it:
    it makes no other call and no call twice. *)
Theorem updateSubscriptionNextPeriod_call_order
    (w : W) (subscriptionId priceId : string) :
  let calls :=
    trace_calls
      (run h (updateSubscriptionNextPeriod subscriptionId priceId) w).1.2 in
  calls = [CreateStripeClient]
  ∨ (∃ stripe,
        calls = [ CreateStripeClient;
                  SubscriptionSchedulesCreate stripe subscriptionId ])
  ∨ (∃ stripe id params,
        calls = [ CreateStripeClient;
                  SubscriptionSchedulesCreate stripe subscriptionId;
                  SubscriptionSchedulesUpdate stripe id params ]).
Proof.
  unfold updateSubscriptionNextPeriod. cbn [bind await run].
  destruct (h CreateStripeClient w) as [w1 [e|stripe]];
    cbn [bind await run]; [by left|].
  destruct (h (SubscriptionSchedulesCreate stripe subscriptionId) w1)
    as [w2 [e|schedule]]; cbn [bind await run]; [right; left; by eexists|].
  destruct (phases schedule !! 0%nat) as [currentPhase|];
    [|right; left; by eexists].
  destruct (phase_items currentPhase !! 0%nat) as [currentItem|];
    [|right; left; by eexists].
  destruct (string_truthy (price_toString (item_price currentItem)));
    cbn [negb bind await run]; [|right; left; by eexists].
  destruct (h (SubscriptionSchedulesUpdate _ _ _) w2) as [w3 [e|updated]];
    right; right; by eexists _, _, _.
Qed.

(** X2: an update is sent only for a schedule that step 1 created and that
    has a phase 0 with an item 0 whose price string is not empty; it is sent
    for that schedule's id, with that price string as the first phase's
    price. *)
Theorem updateSubscriptionNextPeriod_update_only_after_checks
    (w : W) (subscriptionId priceId : string)
    (stripe : StripeClient) (id : string) (params : ScheduleUpdateParams) :
  SubscriptionSchedulesUpdate stripe id params
    ∈ trace_calls
        (run h (updateSubscriptionNextPeriod subscriptionId priceId) w).1.2 →
  ∃ w1 w2 schedule currentPhase currentItem,
    h CreateStripeClient w = (w1, inr stripe)
    ∧ h (SubscriptionSchedulesCreate stripe subscriptionId) w1
      = (w2, inr schedule)
    ∧ phases schedule !! 0%nat = Some currentPhase
    ∧ phase_items currentPhase !! 0%nat = Some currentItem
    ∧ price_toString (item_price currentItem) ≠ ""
    ∧ id = schedule_id schedule
    ∧ (param_price <$> (param_phases params !! 0%nat ≫= λ p,
                          param_items p !! 0%nat))
      = Some (price_toString (item_price currentItem)).
Proof.
  unfold updateSubscriptionNextPeriod. cbn [bind await run].
  destruct (h CreateStripeClient w) as [w1 [e|stripe']] eqn:Hclient;
    cbn [bind await run fst snd trace_calls].
  { rewrite list_elem_of_singleton. discriminate. }
  destruct (h (SubscriptionSchedulesCreate stripe' subscriptionId) w1)
    as [w2 [e|schedule]] eqn:Hcreate;
    cbn [bind await run fst snd trace_calls].
  { rewrite !elem_of_cons, elem_of_nil. intros [|[|[]]]; discriminate. }
  destruct (phases schedule !! 0%nat) as [currentPhase|] eqn:Hphase;
    cbn [run fst snd trace_calls];
    [|rewrite !elem_of_cons, elem_of_nil; intros [|[|[]]]; discriminate].
  destruct (phase_items currentPhase !! 0%nat) as [currentItem|] eqn:Hitem;
    cbn [run fst snd trace_calls];
    [|rewrite !elem_of_cons, elem_of_nil; intros [|[|[]]]; discriminate].
  destruct (price_toString (item_price currentItem)) as [|c rest] eqn:Hprice;
    cbn [string_truthy negb bind await run fst snd trace_calls].
  { rewrite !elem_of_cons, elem_of_nil. intros [|[|[]]]; discriminate. }
  destruct (h (SubscriptionSchedulesUpdate _ _ _) w2) as [w3 [e|updated]];
    cbn [bind await run fst snd trace_calls];
    rewrite !elem_of_cons, elem_of_nil;
    (intros [|[|[Hcall|[]]]]; try discriminate);
    injection Hcall as -> -> ->;
    exists w1, w2, schedule, currentPhase, currentItem;
    rewrite Hprice; by repeat split.
Qed.

(** X3: when item 0 carries an expanded price object in place of the
    identifier, its string form is "[object Object]", which is not empty:
    the price check passes and the update names "[object Object]" as the
    current price. *)
Theorem updateSubscriptionNextPeriod_expanded_price
    (w0 w1 w2 w3 : W) (stripe : StripeClient) (schedule : Schedule)
    (currentPhase : Phase) (currentItem : PhaseItem)
    (expandedId subscriptionId priceId : string)
    (answer : JsError + Schedule) :
  h CreateStripeClient w0 = (w1, inr stripe) →
  h (SubscriptionSchedulesCreate stripe subscriptionId) w1
    = (w2, inr schedule) →
  phases schedule !! 0%nat = Some currentPhase →
  phase_items currentPhase !! 0%nat = Some currentItem →
  item_price currentItem = PriceObject expandedId
  ∨ item_price currentItem = DeletedPriceObject expandedId →
  let update :=
    SubscriptionSchedulesUpdate stripe (schedule_id schedule)
      {| param_phases :=
           [ {| param_items :=
                  [ {| param_price := "[object Object]";
                       param_quantity := item_quantity currentItem |} ];
                param_start_date := Some (start_date currentPhase);
                param_end_date := Some (end_date currentPhase);
                param_iterations := None |};
             {| param_items :=
                  [ {| param_price := priceId; param_quantity := Some 1 |} ];
                param_start_date := None;
                param_end_date := None;
                param_iterations := Some 1 |} ] |} in
  h update w2 = (w3, answer) →
  run h (updateSubscriptionNextPeriod subscriptionId priceId) w0
  = (w3,
     [ Called CreateStripeClient (inr stripe);
       Called (SubscriptionSchedulesCreate stripe subscriptionId)
         (inr schedule);
       Called update answer ],
     answer).
Proof.
  intros Hclient Hcreate Hphase Hitem Hprice update Hupdate.
  unfold updateSubscriptionNextPeriod.
  answer_with Hclient. answer_with Hcreate.
  rewrite Hphase, Hitem.
  destruct Hprice as [-> | ->]; cbn [price_toString string_truthy negb];
    fold update; answer_with Hupdate; by destruct answer.
Qed.

(** X4: a failure of the provider in step 1 reaches the caller as it is, and
    nothing is called after it: when the client cannot be created the
    schedule is not created, and when the schedule cannot be created it is
    not updated. *)
Theorem updateSubscriptionNextPeriod_step1_failure
    (w : W) (subscriptionId priceId : string) :
  match h CreateStripeClient w with
  | (w1, inl e) =>
      run h (updateSubscriptionNextPeriod subscriptionId priceId) w
      = (w1, [Called CreateStripeClient (inl e)], inl e)
  | (w1, inr stripe) =>
      match h (SubscriptionSchedulesCreate stripe subscriptionId) w1 with
      | (w2, inl e) =>
          run h (updateSubscriptionNextPeriod subscriptionId priceId) w
          = (w2,
             [ Called CreateStripeClient (inr stripe);
               Called (SubscriptionSchedulesCreate stripe subscriptionId)
                 (inl e) ],
             inl e)
      | (w2, inr schedule) => True
      end
  end.
Proof.
  unfold updateSubscriptionNextPeriod. cbn [bind await run].
  destruct (h CreateStripeClient w) as [w1 [e|stripe]];
    cbn [bind await run]; [done|].
  destruct (h (SubscriptionSchedulesCreate stripe subscriptionId) w1)
    as [w2 [e|schedule]]; cbn [bind await run]; done.
Qed.

(** X5: [releaseSubscriptionSchedule] and [getSubscriptionSchedule] make one
    call for the identifier they are given, once the client exists, and
    return its answer as it is, a rejection included; when the client cannot
    be created they call nothing else. *)
Theorem schedule_passthrough (w : W) (subscriptionScheduleId : string) :
  match h CreateStripeClient w with
  | (w1, inl e) =>
      run h (releaseSubscriptionSchedule subscriptionScheduleId) w
      = (w1, [Called CreateStripeClient (inl e)], inl e)
      ∧ run h (getSubscriptionSchedule subscriptionScheduleId) w
        = (w1, [Called CreateStripeClient (inl e)], inl e)
  | (w1, inr stripe) =>
      let release :=
        SubscriptionSchedulesRelease stripe subscriptionScheduleId in
      let retrieve :=
        SubscriptionSchedulesRetrieve stripe subscriptionScheduleId in
      run h (releaseSubscriptionSchedule subscriptionScheduleId) w
      = ((h release w1).1,
         [ Called CreateStripeClient (inr stripe);
           Called release (h release w1).2 ],
         (h release w1).2)
      ∧ run h (getSubscriptionSchedule subscriptionScheduleId) w
        = ((h retrieve w1).1,
           [ Called CreateStripeClient (inr stripe);
             Called retrieve (h retrieve w1).2 ],
           (h retrieve w1).2)
  end.
Proof.
  unfold releaseSubscriptionSchedule, getSubscriptionSchedule.
  cbn [bind await run].
  destruct (h CreateStripeClient w) as [w1 [e|stripe]];
    cbn [bind await run]; [done|].
  split.
  - by destruct (h (SubscriptionSchedulesRelease _ _) w1) as [w2 [e|s]].
  - by destruct (h (SubscriptionSchedulesRetrieve _ _) w1) as [w2 [e|s]].
Qed.

End ScheduleWorkflowCalls.

(** ** The single-call adapters *)

Section BillingAdapters.
Import Stripe Billing.
Context {W : Type} (h : Handler BillingE W).

(** X6: [createCheckoutSession] asks for exactly one session, in subscription
    mode, for the customer [stripeCustomerId], with the one price at quantity
    1, card payments, the user id as metadata, promotion codes allowed and
    the two return addresses. [existing] matters only by being there: it
    adds [proration_behavior: 'create_prorations'], and neither of its two
    identifiers is sent. The provider's answer is the outcome. *)
Theorem createCheckoutSession_request (w : W) (input : CheckoutInput) :
  match h BillingClient w with
  | (w1, inl e) =>
      run h (createCheckoutSession input) w
      = (w1, [Called BillingClient (inl e)], inl e)
  | (w1, inr stripe) =>
      let request :=
        CheckoutSessionsCreate stripe
          {| mode := "subscription";
             customer := stripeCustomerId input;
             line_items :=
               [ {| line_price := priceId input; line_quantity := 1 |} ];
             payment_method_types := ["card"];
             metadata_user_id := userId input;
             allow_promotion_codes := true;
             success_url := successUrl input;
             cancel_url := cancelUrl input;
             subscription_data :=
               (λ _, {| data_proration_behavior := "create_prorations" |})
                 <$> existing input |} in
      run h (createCheckoutSession input) w
      = ((h request w1).1,
         [ Called BillingClient (inr stripe);
           Called request (h request w1).2 ],
         (h request w1).2)
  end.
Proof.
  unfold createCheckoutSession. cbn [bind await run].
  destruct (h BillingClient w) as [w1 [e|stripe]];
    cbn [bind await run]; [done|].
  destruct (existing input) as [e|]; cbn [bind await run fmap option_fmap
                                          option_map];
    by destruct (h (CheckoutSessionsCreate _ _) w1) as [w2 [e'|session]].
Qed.

(** X7: [createCustomer], [createBillingPortalSession] and
    [updateSubscription] each make one call once the client exists, with the
    arguments they were given ([updateSubscription] for the one item, with
    [proration_behavior: 'always_invoice']), and return its answer as it is,
    a rejection included. *)
Theorem billing_adapters_passthrough
    (w : W) (name email customerId returnUrl : string)
    (subscriptionId subscriptionItemId priceId : string) :
  match h BillingClient w with
  | (w1, inl e) =>
      (run h (createCustomer name email) w).2 = inl e
      ∧ (run h (createBillingPortalSession customerId returnUrl) w).2 = inl e
      ∧ (run h (updateSubscription subscriptionId subscriptionItemId priceId)
             w).2 = inl e
  | (w1, inr stripe) =>
      let customers :=
        CustomersCreate stripe
          {| customer_name := name; customer_email := email |} in
      let portal :=
        BillingPortalSessionsCreate stripe
          {| portal_customer := customerId; return_url := returnUrl |} in
      let subscriptions :=
        SubscriptionsUpdate stripe subscriptionId
          {| update_items :=
               [ {| update_item_id := subscriptionItemId;
                    update_item_price := priceId |} ];
             proration_behavior := "always_invoice" |} in
      run h (createCustomer name email) w
      = ((h customers w1).1,
         [ Called BillingClient (inr stripe);
           Called customers (h customers w1).2 ],
         (h customers w1).2)
      ∧ run h (createBillingPortalSession customerId returnUrl) w
        = ((h portal w1).1,
           [ Called BillingClient (inr stripe);
             Called portal (h portal w1).2 ],
           (h portal w1).2)
      ∧ run h (updateSubscription subscriptionId subscriptionItemId priceId) w
        = ((h subscriptions w1).1,
           [ Called BillingClient (inr stripe);
             Called subscriptions (h subscriptions w1).2 ],
           (h subscriptions w1).2)
  end.
Proof.
  unfold createCustomer, createBillingPortalSession, updateSubscription.
  cbn [bind await run].
  destruct (h BillingClient w) as [w1 [e|stripe]];
    cbn [bind await run]; [done|].
  split; [|split].
  - by destruct (h (CustomersCreate _ _) w1) as [w2 [e|r]].
  - by destruct (h (BillingPortalSessionsCreate _ _) w1) as [w2 [e|r]].
  - by destruct (h (SubscriptionsUpdate _ _ _) w1) as [w2 [e|r]].
Qed.

End BillingAdapters.

(** ** Tier comparison as an order *)

Section TierOrder.
Import Stripe.

(** X8: [isTierUpgrade] is transitive: an upgrade of an upgrade of a price
    is an upgrade of that price. *)
Theorem isTierUpgrade_transitive (a b c : Price) :
  isTierUpgrade a b = true → isTierUpgrade b c = true →
  isTierUpgrade a c = true.
Proof.
  unfold isTierUpgrade. rewrite !Z.gtb_ltb, !Z.ltb_lt. lia.
Qed.

Lemma isTierUpgrade_transitive_witness :
  isTierUpgrade {| monthlyMessageLimit := 100 |}
                {| monthlyMessageLimit := 900 |} = true.
Proof.
  apply (isTierUpgrade_transitive
           {| monthlyMessageLimit := 100 |}
           {| monthlyMessageLimit := 500 |}
           {| monthlyMessageLimit := 900 |}); reflexivity.
Defined.

End TierOrder.

(** ** The usage section: message and component *)

Section UsageComponent.
Import Stripe Usage UsageView.

Variable FREE_PRODUCT_CONFIG : Product.
Variable toLocaleDateString : Date → string.

(** X9: a scheduled-change message is rendered exactly when a price change
    with a target price or a cancellation is scheduled, whatever the date
    formatter returns; every rendered message begins with "Your ". *)
Theorem getSubscriptionChangeMessage_rendered_iff
    (subscription : option Subscription) :
  (is_Some (getSubscriptionChangeMessage toLocaleDateString subscription)
   ↔ ∃ change,
       subscription ≫= scheduledChange = Some change
       ∧ ((scheduledAction change = Some PRICE_CHANGE
           ∧ is_Some (price change))
          ∨ scheduledAction change = Some CANCELLATION))
  ∧ ∀ element,
      getSubscriptionChangeMessage toLocaleDateString subscription
      = Some element →
      ∃ rest, children element = "Your " +:+ rest.
Proof.
  unfold getSubscriptionChangeMessage, changeMessageText.
  destruct (subscription ≫= scheduledChange) as [change|]; cbn.
  2: { split; [|by intros ? [=]]. split; [by intros [? [=]]|].
       by intros (? & [=] & _). }
  destruct (scheduledAction change) as [[|]|] eqn:Haction;
    [destruct (price change) as [target|] eqn:Hprice| |]; cbn.
  - split.
    + split; [|by eexists]. intros _. exists change. split; [done|].
      left. split; [done|]. by eexists.
    + intros ? [= <-]. by eexists.
  - split; [|by intros ? [=]]. split; [by intros [? [=]]|].
    intros (? & [= <-] & [[_ [? Hsome]]|Hcancel]); congruence.
  - split.
    + split; [|by eexists]. intros _. exists change. split; [done|].
      by right.
    + intros ? [= <-]. by eexists.
  - split; [|by intros ? [=]]. split; [by intros [? [=]]|].
    intros (? & [= <-] & [[? _]|?]); congruence.
Qed.

(** X10: while the usage data has no bucket for the product's tier the
    component shows only the loading line: without usage data for every
    subscription, and for a product that is not free whenever the monthly
    bucket is missing, even if a daily one is there. With the bucket there,
    a free product (or, without a subscription product, a free
    [FREE_PRODUCT_CONFIG]) shows the daily counts under the label 'Trial',
    any other product the monthly counts under 'Active'; the bar is at
    [usagePercent] of the counts shown, and without a subscription there is
    no scheduled-change message. *)
Theorem UsageSection_tier_bucket :
  (∀ subscription,
      UsageSection FREE_PRODUCT_CONFIG toLocaleDateString subscription None
      = CalculatingUsage)
  ∧ (∀ subscription product usageData,
      subscription ≫= data_product = Some product →
      product_type product ≠ FREE →
      usageData ≫= monthly = None →
      UsageSection FREE_PRODUCT_CONFIG toLocaleDateString subscription
        usageData
      = CalculatingUsage)
  ∧ (∀ subscription product usageData u,
      subscription ≫= data_product = Some product →
      product_type product ≠ FREE →
      usageData ≫= monthly = Some u →
      UsageSection FREE_PRODUCT_CONFIG toLocaleDateString subscription
        usageData
      = UsagePanel (product_name product) "Active"
          (usageCount (usage u)) (limitCount (usage u))
          (if decide (period u = "day") then "daily" else "monthly")
          (getSubscriptionChangeMessage toLocaleDateString
             (data_subscription <$> subscription))
          (usagePercent (usage u)))
  ∧ (∀ usageData u,
      product_type FREE_PRODUCT_CONFIG = FREE →
      usageData ≫= daily = Some u →
      UsageSection FREE_PRODUCT_CONFIG toLocaleDateString None usageData
      = UsagePanel (product_name FREE_PRODUCT_CONFIG) "Trial"
          (usageCount (usage u)) (limitCount (usage u))
          (if decide (period u = "day") then "daily" else "monthly")
          None
          (usagePercent (usage u))).
Proof.
  unfold UsageSection. split_and!.
  - intros subscription. cbn. by destruct (decide _).
  - intros subscription product usageData -> Hpaid ->. cbn.
    by destruct (decide _).
  - intros subscription product usageData u -> Hpaid ->. cbn.
    by destruct (decide _).
  - intros usageData u Hfree ->. cbn. by destruct (decide _).
Qed.

End UsageComponent.

Section UsagePercentZero.
Import Usage.

(** X11: with nothing used and a limit greater than 0 the percentage is
    exactly 0. *)
Theorem usagePercent_nothing_used (limit : float) :
  (0 <? limit)%float = true →
  usagePercent {| usageCount := 0; limitCount := limit |} = 0%float.
Proof.
  intros Hpositive. unfold usagePercent. cbn [usageCount limitCount].
  rewrite Hpositive.
  assert (Hspec : Prim2SF (0 / limit * 100) = Prim2SF 0).
  { rewrite FloatAxioms.mul_spec, FloatAxioms.div_spec.
    rewrite FloatAxioms.ltb_spec in Hpositive.
    change (Prim2SF 0) with (S754_zero false) in *.
    destruct (Prim2SF limit) as [s|s| |s m e]; try discriminate;
      destruct s; try discriminate; reflexivity. }
  apply (f_equal SF2Prim) in Hspec.
  by rewrite !FloatAxioms.SF2Prim_Prim2SF in Hspec.
Qed.

Lemma usagePercent_nothing_used_witness :
  usagePercent {| usageCount := 0; limitCount := 500 |} = 0%float.
Proof. apply (usagePercent_nothing_used 500). reflexivity. Defined.

End UsagePercentZero.

(** ** Listing projects *)

Section StableSort.
Import Project.
Context {A : Type} (key : A → jsnumber).

(** Inserting an element with a key among elements with keys changes the
    elements of any one key only by putting it in front of them. *)
Lemma filter_key_sort_insert (k : Z) (x : A) (l : list A) (kx : Z) :
  key x = Some kx →
  Forall (λ y, is_Some (key y)) l →
  filter (λ y, key y = Some k)
         (sort_insert (λ a b, number_sub (key b) (key a)) x l)
  = if decide (kx = k)
    then x :: filter (λ y, key y = Some k) l
    else filter (λ y, key y = Some k) l.
Proof.
  intros Hx Hkeys. induction Hkeys as [|y l [ky Hy] _ IH];
    cbn [sort_insert].
  { rewrite filter_cons, Hx. case_decide; simplify_eq/=.
    - by rewrite decide_True.
    - by rewrite decide_False by congruence. }
  unfold sort_before, number_sub at 1. rewrite Hx, Hy.
  destruct (Z.leb_spec (ky - kx) 0) as [Hle|Hgt].
  - rewrite (filter_cons _ x), Hx. case_decide; simplify_eq/=.
    + by rewrite decide_True.
    + by rewrite decide_False by congruence.
  - rewrite !(filter_cons _ y), IH.
    destruct (decide (kx = k)) as [->|], (decide (key y = Some k)) as [Hk|];
      try done.
    rewrite Hy in Hk. injection Hk as ->. lia.
Qed.

(** The sort is stable: the elements of one key come out in the order they
    went in. *)
Lemma filter_key_array_sort (k : Z) (l : list A) :
  Forall (λ y, is_Some (key y)) l →
  filter (λ y, key y = Some k)
         (array_sort (λ a b, number_sub (key b) (key a)) l)
  = filter (λ y, key y = Some k) l.
Proof.
  induction 1 as [|x l [kx Hx] Hkeys IH]; [done|].
  unfold array_sort in *. cbn [foldr].
  rewrite (filter_key_sort_insert k x _ kx Hx).
  - rewrite IH, filter_cons, Hx. case_decide.
    + by rewrite decide_True by congruence.
    + by rewrite decide_False by congruence.
  - fold (array_sort (λ a b, number_sub (key b) (key a)) l).
    by rewrite array_sort_Permutation.
Qed.

End StableSort.

Section ProjectLists.
Import Project ProjectStore.
Context `{OnlookDb} {W : Type} (h : Handler QueryE W).

(** X12: [list] returns every project of the query result exactly once,
    whether or not the [updatedAt] values are valid dates, after that one
    query and nothing else; a rejected query reaches the caller as it is. *)
Theorem project_list_keeps_every_project (w : W) (ctx_user_id : string) :
  match h (UserProjectsFindMany ctx_user_id) w with
  | (w1, inl e) =>
      run h (project_list ctx_user_id) w
      = (w1, [Called (UserProjectsFindMany ctx_user_id) (inl e)], inl e)
  | (w1, inr rows) =>
      ∃ result,
        run h (project_list ctx_user_id) w
        = (w1, [Called (UserProjectsFindMany ctx_user_id) (inr rows)],
           inr result)
        ∧ result ≡ₚ (λ row, toProject (up_project row)) <$> rows
        ∧ length result = length rows
  end.
Proof.
  unfold project_list. cbn [bind await run].
  destruct (h (UserProjectsFindMany ctx_user_id) w) as [w1 [e|rows]];
    cbn [bind await run]; [done|].
  eexists. split; [reflexivity|]. split.
  - apply array_sort_Permutation.
  - by rewrite array_sort_Permutation, length_fmap.
Qed.

(** X13: [list] is [getPreviewProjects] for the calling user, sorted:
    both make the same query, fail alike, and the projects that [list]
    returns are those of [getPreviewProjects], which come in the order of
    the query result, put through the sort. *)
Theorem project_list_sorts_preview (w : W) (userId : string) :
  let '(w1, t, preview) := run h (getPreviewProjects userId) w in
  run h (project_list userId) w
  = (w1, t,
     match preview with
     | inl e => inl e
     | inr projects =>
         inr (array_sort
                (λ a b, number_sub (updatedAt_getTime b)
                                   (updatedAt_getTime a))
                projects)
     end)
  ∧ match h (UserProjectsFindMany userId) w with
    | (_, inl e) => preview = inl e
    | (_, inr rows) =>
        preview = inr ((λ row, toProject (up_project row)) <$> rows)
    end.
Proof.
  unfold project_list, getPreviewProjects. cbn [bind await run].
  by destruct (h (UserProjectsFindMany userId) w) as [w1 [e|rows]].
Qed.

(** X14: projects updated at the same instant are listed in the order in
    which the query returned them (every [updatedAt] being a valid date). *)
Theorem project_list_ties_keep_query_order
    (w w1 : W) (ctx_user_id : string) (rows : list UserProjectWithProject)
    (instant : Z) :
  h (UserProjectsFindMany ctx_user_id) w = (w1, inr rows) →
  Forall (λ row, is_Some (updatedAt_getTime (toProject (up_project row))))
         rows →
  ∃ result,
    (run h (project_list ctx_user_id) w).2 = inr result
    ∧ filter (λ p, updatedAt_getTime p = Some instant) result
      = filter (λ p, updatedAt_getTime p = Some instant)
               ((λ row, toProject (up_project row)) <$> rows).
Proof.
  intros Hquery Hvalid. unfold project_list. answer_with Hquery.
  eexists. split; [reflexivity|].
  apply (filter_key_array_sort updatedAt_getTime).
  by apply Forall_fmap.
Qed.

End ProjectLists.

(** ** Project creation: order, analytics and the missing row *)

Section ProjectCreationSteps.
Import Project CreationSteps.
Local Open Scope list_scope.
Context `{OnlookDb} (env : Environment).

(** Symbolic execution of [create]: one statement at a time, by what the
    database decides about it. *)
Ltac create_step on_failure :=
  match goal with
  | |- context [tx_handler env ?c ?w0] =>
      unfold tx_handler at 1;
      destruct (fails env c w0) eqn:?;
      cbn [perform bind await run];
      [on_failure|]
  | |- context [input_creationData ?input] =>
      destruct (input_creationData input) eqn:?;
      cbn [bind await run]
  end.

Lemma create_committed (input : CreateInput) (w w1 : World)
    (t : list (TraceEntry TxE)) (newProject : DbProject) :
  create env input w = (w1, t, inr newProject) →
  stored_project env w (input_project input) = Some newProject
  ∧ database w1 = created_database input newProject (database w)
  ∧ analytics w1 = analytics w ++ [creation_event input newProject]
  ∧ trace_calls t = creation_calls input newProject.
Proof.
  unfold create, transaction, create_callback, created_database,
    creation_calls, creation_event.
  cbn [bind await run]. unfold tx_handler at 1.
  destruct (fails env _ w); [by intros [=]|].
  cbn [perform].
  destruct (stored_project env w _) as [p|];
    cbn [bind await run lookup list_lookup]; [|by intros [=]].
  repeat create_step ltac:(by intros [=]).
  all: destruct (commit_fails env _); [by intros [=]|].
  all: intros [= <- <- <-].
  all: repeat match goal with H : input_creationData _ = _ |- _ =>
                         rewrite H end.
  all: by cbn.
Qed.

(** X15: a creation that goes through has made its statements in the order
    project, join row, canvas, user canvas, frame, conversation, the
    creation request if there is one, and then, once, the
    'user_create_project' event for the user and the new project's id; the
    project returned is the row that the first statement stored. *)
Theorem create_call_order (input : CreateInput) (w w1 : World)
    (t : list (TraceEntry TxE)) (newProject : DbProject) :
  create env input w = (w1, t, inr newProject) →
  trace_calls t = creation_calls input newProject
  ∧ analytics w1 = analytics w ++ [creation_event input newProject]
  ∧ stored_project env w (input_project input) = Some newProject.
Proof. intros Hcreate. by destruct (create_committed _ _ _ _ _ Hcreate) as (? & ? & ? & ?). Qed.

(** X16: when the insert into projects returns no row, [create] throws
    'Failed to create project in database' after that one statement: no
    other insert is made, no event is sent, and the database is unchanged. *)
Theorem create_without_returned_row (input : CreateInput) (w : World) :
  fails env (InsertProjectReturning (input_project input)) w = None →
  stored_project env w (input_project input) = None →
  create env input w
  = (w, [Called (InsertProjectReturning (input_project input)) (inr [])],
     inl (Error "Failed to create project in database")).
Proof.
  intros Hfails Hstored.
  unfold create, transaction, create_callback.
  cbn [bind await run]. unfold tx_handler at 1.
  rewrite Hfails. cbn [perform]. rewrite Hstored.
  cbn [bind await run lookup list_lookup]. by destruct w.
Qed.

(** X17: the event is sent before the transaction commits: when every
    statement goes through and the commit fails, the creation fails with the
    error of the commit and the database is unchanged, yet the event for the
    project has reached the analytics sink. *)
Theorem create_event_precedes_commit (input : CreateInput) (w : World)
    (newProject : DbProject) (e : JsError) :
  (∀ c w0, fails env c w0 = None) →
  stored_project env w (input_project input) = Some newProject →
  (∀ w0, commit_fails env w0 = Some e) →
  let '(w1, t, out) := create env input w in
  out = inl e
  ∧ database w1 = database w
  ∧ analytics w1 = analytics w ++ [creation_event input newProject]
  ∧ trace_calls t = creation_calls input newProject.
Proof.
  intros Hfails Hstored Hcommit.
  unfold create, transaction, create_callback, creation_calls,
    creation_event.
  cbn [bind await run]. unfold tx_handler. rewrite !Hfails.
  cbn [perform]. rewrite Hstored.
  cbn [bind await run lookup list_lookup]. rewrite !Hfails.
  cbn [perform bind await run]. rewrite !Hfails. cbn [perform bind await run].
  rewrite !Hfails. cbn [perform bind await run]. rewrite !Hfails.
  cbn [perform bind await run]. rewrite !Hfails. cbn [perform bind await run].
  destruct (input_creationData input); cbn [bind await run];
    rewrite ?Hfails; cbn [perform bind await run];
    rewrite ?Hfails; cbn [perform bind await run];
    rewrite Hcommit; by cbn.
Qed.

(** X18: when [create] ends on a statement that failed, other than the
    event itself, it fails with the error of that statement, no event has
    been sent, and the database is unchanged. *)
Theorem create_failed_insert_sends_no_event (input : CreateInput) (w : World) :
  let '(w1, t, out) := create env input w in
  ∀ c e,
    last t = Some (Called c (inl e)) →
    (∀ ev, c ≠ TrackEvent ev) →
    out = inl e ∧ analytics w1 = analytics w ∧ database w1 = database w.
Proof.
  unfold create, transaction, create_callback.
  cbn [bind await run]. unfold tx_handler at 1.
  destruct (fails env _ w); [by intros ? ? [= <- <-]|].
  cbn [perform].
  destruct (stored_project env w _) as [p|];
    cbn [bind await run lookup list_lookup]; [|by intros ? ? [=]].
  repeat create_step
    ltac:(first [ by intros ? ? [= <- <-]
                | intros ? ? [= <- <-] Hnot; by destruct (Hnot _) ]).
  all: destruct (commit_fails env _); by intros ? ? [=].
Qed.

End ProjectCreationSteps.

(** ** Reading, deleting and updating projects *)

Section ProjectStoreFacts.
Import Project ProjectStore CreationSteps.
Local Open Scope list_scope.
Context `{ProjectSchema}.

Lemma filter_all {A} (P : A → Prop) `{∀ x, Decision (P x)} (l : list A) :
  Forall P l → filter P l = l.
Proof.
  induction 1 as [|x l Hx _ IH]; [done|].
  by rewrite filter_cons, decide_True, IH.
Qed.

Lemma filter_none {A} (P : A → Prop) `{∀ x, Decision (P x)} (l : list A) :
  Forall (λ x, ¬ P x) l → filter P l = [].
Proof.
  induction 1 as [|x l Hx _ IH]; [done|].
  by rewrite filter_cons, decide_False, IH.
Qed.

(** X19: [get] makes one query; it returns [null], after writing 'project
    not found' to the console, exactly when the query finds no row, and the
    mapped row otherwise; a rejected query reaches the caller as it is. *)
Theorem get_null_iff_missing {W : Type} (h : Handler StoreE W) (w : W)
    (projectId : string) :
  match h (ProjectsFindFirst projectId) w with
  | (w1, inl e) =>
      run h (get projectId) w
      = (w1, [Called (ProjectsFindFirst projectId) (inl e)], inl e)
  | (w1, inr None) =>
      run h (get projectId) w
      = (w1,
         [ Called (ProjectsFindFirst projectId) (inr None);
           Logged "project not found" ],
         inr None)
  | (w1, inr (Some project)) =>
      run h (get projectId) w
      = (w1, [Called (ProjectsFindFirst projectId) (inr (Some project))],
         inr (Some (toProject project)))
  end.
Proof.
  unfold get. cbn [bind await run].
  by destruct (h (ProjectsFindFirst projectId) w) as [w1 [e|[project|]]].
Qed.

(** X24: [update] makes one statement, an update of the project rows with
    the given id to the given values, outside any transaction; it returns
    nothing when the statement goes through, and a rejected statement
    reaches the caller as it is. *)
Theorem update_single_statement {W : Type} (h : Handler StoreE W) (w : W)
    (id : string) (project : ProjectUpdate) :
  match h (UpdateProjects project id) w with
  | (w1, inl e) =>
      run h (update id project) w
      = (w1, [Called (UpdateProjects project id) (inl e)], inl e)
  | (w1, inr r) =>
      run h (update id project) w
      = (w1, [Called (UpdateProjects project id) (inr r)], inr tt)
  end.
Proof.
  unfold update. cbn [bind await run].
  by destruct (h (UpdateProjects project id) w) as [w1 [e|r]].
Qed.

Section OnTheDatabase.
Variable store_fails : StoreCall → World → option JsError.
Variable store_commit_fails : World → option JsError.

(** X20: [delete] is all or nothing. When no statement and no commit
    fails it succeeds; when it succeeds it has made two statements, one on
    the project table and then one on the join table, the project rows with
    the given id are gone and the other project rows are as before, and no
    join row of that project is left; when it fails the database is as
    before. *)
Theorem delete_all_or_nothing (id : string) (w : World) :
  let '(w1, t, out) := delete store_fails store_commit_fails id w in
  let before := database w in
  let after := database w1 in
  ((∀ c w0, store_fails c w0 = None) →
   (∀ w0, store_commit_fails w0 = None) →
   out = inr tt)
  ∧ match out with
    | inr _ =>
        trace_calls t = [DeleteProjects id; DeleteUserProjects id]
        ∧ projects after = filter (λ p, project_id p ≠ id) (projects before)
        ∧ Forall (λ r, up_projectId r ≠ id) (userProjects after)
    | inl _ => after = before
    end.
Proof.
  unfold delete, store_transaction, delete_callback.
  cbn [bind await run]. unfold store_handler at 1.
  destruct (store_fails _ w) eqn:H1;
    [cbn; split; [intros Hs; by rewrite Hs in H1|done]|].
  cbn [store_perform bind await run]. unfold store_handler at 1.
  destruct (store_fails (DeleteUserProjects id) _) eqn:H2;
    [cbn; split; [intros Hs; by rewrite Hs in H2|done]|].
  cbn [store_perform bind await run].
  destruct (store_commit_fails _) eqn:H3;
    [cbn; split; [intros _ Hc; by rewrite Hc in H3|done]|].
  cbn. split_and!; try done.
  apply Forall_forall. by intros r [Hne _]%list_elem_of_filter.
Qed.

Lemma delete_committed (id : string) (w w1 : World)
    (t : list (TraceEntry StoreE)) (r : unit) :
  delete store_fails store_commit_fails id w = (w1, t, inr r) →
  projects (database w1) = filter (λ p, project_id p ≠ id) (projects (database w))
  ∧ Forall (λ r, up_projectId r ≠ id) (userProjects (database w1)).
Proof.
  unfold delete, store_transaction, delete_callback.
  cbn [bind await run]. unfold store_handler at 1.
  destruct (store_fails _ w); [by intros [=]|].
  cbn [store_perform bind await run]. unfold store_handler at 1.
  destruct (store_fails _ _); [by intros [=]|].
  cbn [store_perform bind await run].
  destruct (store_commit_fails _); [by intros [=]|].
  intros [= <- <- <-]. cbn. split; [done|].
  apply Forall_forall. by intros r0 [Hne _]%list_elem_of_filter.
Qed.

(** X21: deleting a project right after creating it, its id being new to
    the project table, puts the project table back as it was before the
    creation and leaves no join row of that project. *)
Theorem create_then_delete (env : Environment) (input : CreateInput)
    (w w1 w2 : World) (t1 : list (TraceEntry TxE))
    (t2 : list (TraceEntry StoreE)) (newProject : DbProject) (r : unit) :
  create env input w = (w1, t1, inr newProject) →
  Forall (λ p, project_id p ≠ project_id newProject)
         (projects (database w)) →
  delete store_fails store_commit_fails (project_id newProject) w1
  = (w2, t2, inr r) →
  projects (database w2) = projects (database w)
  ∧ Forall (λ r, up_projectId r ≠ project_id newProject)
           (userProjects (database w2)).
Proof.
  intros Hcreate Hprojects Hdelete.
  destruct (create_committed _ _ _ _ _ _ Hcreate) as (_ & Hdb & _ & _).
  destruct (delete_committed _ _ _ _ _ Hdelete) as (Hp & Hup).
  split; [|done].
  rewrite Hp, Hdb. unfold created_database.
  destruct (input_creationData input); cbn.
  all: rewrite filter_app, (filter_all _ _ Hprojects), filter_cons,
         filter_nil.
  all: rewrite decide_False by (by intros ?); by rewrite app_nil_r.
Qed.

(** X22: after a [delete] that went through, [get] for the same id finds
    nothing and returns [null]. *)
Theorem get_after_delete (id : string) (w w1 : World)
    (t : list (TraceEntry StoreE)) (r : unit) :
  delete store_fails store_commit_fails id w = (w1, t, inr r) →
  store_fails (ProjectsFindFirst id) w1 = None →
  run (store_handler store_fails) (get id) w1
  = (w1,
     [ Called (ProjectsFindFirst id) (inr None);
       Logged "project not found" ],
     inr None).
Proof.
  intros Hdelete Hfind.
  destruct (delete_committed _ _ _ _ _ Hdelete) as (Hp & _).
  unfold get. cbn [bind await run]. unfold store_handler at 1.
  rewrite Hfind. cbn [store_perform]. rewrite Hp.
  rewrite filter_none; [done|].
  apply Forall_forall. intros p Hin Hid.
  apply list_elem_of_filter in Hin as [Hne _]. done.
Qed.

(** X23: after a [create] that went through, [get] for the id of the new
    project returns that project, its id being new to the project table. *)
Theorem get_after_create (env : Environment) (input : CreateInput)
    (w w1 : World) (t : list (TraceEntry TxE)) (newProject : DbProject) :
  create env input w = (w1, t, inr newProject) →
  Forall (λ p, project_id p ≠ project_id newProject)
         (projects (database w)) →
  store_fails (ProjectsFindFirst (project_id newProject)) w1 = None →
  (run (store_handler store_fails) (get (project_id newProject)) w1).2
  = inr (Some (toProject newProject)).
Proof.
  intros Hcreate Hfresh Hfind.
  destruct (create_committed _ _ _ _ _ _ Hcreate) as (_ & Hdb & _ & _).
  unfold get. cbn [bind await run]. unfold store_handler at 1.
  rewrite Hfind. cbn [store_perform]. rewrite Hdb.
  unfold created_database.
  assert (Hfound :
    filter (λ p, project_id p = project_id newProject)
           (projects (database w) ++ [newProject]) = [newProject]).
  { rewrite filter_app, (filter_none _ _ Hfresh), filter_cons, filter_nil.
    by rewrite decide_True. }
  destruct (input_creationData input); cbn; by rewrite Hfound.
Qed.

End OnTheDatabase.
End ProjectStoreFacts.

(** ** Generated names *)

Section Trim.
Import Project.

Lemma dropWhile_head {A} (f : A → bool) (l : list A) (x : A) (l' : list A) :
  dropWhile f l = x :: l' → f x = false.
Proof.
  induction l as [|y l IH]; cbn [dropWhile]; [done|].
  destruct (f y) eqn:Hy; [done|]. by intros [= <- _].
Qed.

Lemma dropWhile_suffix {A} (f : A → bool) (l : list A) :
  ∃ dropped, l = (dropped ++ dropWhile f l)%list.
Proof.
  induction l as [|y l [dropped IH]]; cbn [dropWhile]; [by exists []|].
  destruct (f y).
  - exists (y :: dropped). cbn. by f_equal.
  - by exists [].
Qed.

(** What [trim] returns does not begin with white space. *)
Lemma trim_head (s : jsstring) (c : N) :
  head (trim s) = Some c → is_white_space c = false.
Proof.
  unfold trim. rewrite head_reverse.
  destruct (dropWhile_suffix is_white_space
              (reverse (dropWhile is_white_space s))) as [dropped Hsuffix].
  intros Hlast.
  assert (Hhead : head (dropWhile is_white_space s) = Some c).
  { rewrite <- last_reverse, Hsuffix, last_app, Hlast. done. }
  apply head_Some in Hhead as [rest Hrest].
  by apply dropWhile_head in Hrest.
Qed.

(** What [trim] returns does not end with white space. *)
Lemma trim_last (s : jsstring) (c : N) :
  last (trim s) = Some c → is_white_space c = false.
Proof.
  unfold trim. rewrite last_reverse.
  intros [rest Hrest]%head_Some. by apply dropWhile_head in Hrest.
Qed.

(** [trim] only removes code units. *)
Lemma trim_length (s : jsstring) : (length (trim s) ≤ length s)%nat.
Proof.
  unfold trim. rewrite length_reverse.
  destruct (dropWhile_suffix is_white_space
              (reverse (dropWhile is_white_space s))) as [d1 H1].
  destruct (dropWhile_suffix is_white_space s) as [d2 H2].
  apply (f_equal length) in H1, H2.
  rewrite length_app in H1, H2. rewrite length_reverse in H1. lia.
Qed.

End Trim.

Section GeneratedNames.
Import Project.
Context {W : Type} (h : Handler AiE W).

(** X25: whatever the language model does, [generateName] returns a name of
    at least 1 and at most 50 code units that neither begins nor ends with
    a white-space character. *)
Theorem generateName_name_is_clean (w : W) (prompt : jsstring) :
  ∃ name,
    (run h (generateName prompt) w).2 = inr name
    ∧ (1 ≤ length name ≤ 50)%nat
    ∧ (∀ c, head name = Some c → is_white_space c = false)
    ∧ (∀ c, last name = Some c → is_white_space c = false).
Proof.
  assert (Hfallback :
    (1 ≤ length (js "New Project") ≤ 50)%nat
    ∧ (∀ c, head (js "New Project") = Some c → is_white_space c = false)
    ∧ (∀ c, last (js "New Project") = Some c → is_white_space c = false)).
  { split; [cbn; lia|]. split; by intros c [= <-]. }
  unfold generateName. cbn [try_catch bind await run].
  destruct (h (InitModel OPENROUTER OPEN_AI_GPT_4_1_NANO) w)
    as [w1 [e|config]]; cbn [try_catch bind await run].
  { by exists (js "New Project"). }
  destruct (h (GenerateText _) w1) as [w2 [e|result]];
    cbn [try_catch bind await run].
  { by exists (js "New Project"). }
  unfold MAX_NAME_LENGTH.
  destruct (trim (text result)) as [|c rest] eqn:Htrim.
  { by exists (js "New Project"). }
  assert (Hpos : (0 <? length (c :: rest))%nat = true)
    by (apply Nat.ltb_lt; cbn [length]; lia).
  rewrite Hpos. cbn [andb].
  destruct (Nat.leb_spec (length (c :: rest)) 50) as [Hle|Hgt];
    cbn [try_catch run]; [|by exists (js "New Project")].
  exists (c :: rest). split; [done|]. split; [cbn [length] in *; lia|].
  rewrite <- Htrim. split; intros d.
  - apply trim_head.
  - apply trim_last.
Qed.

(** X26: [generateName] asks for the model, then, only if it got one, for
    one text of at most 50 tokens with the user's prompt between the
    [<prompt>] tags. It writes to the console exactly when one of the two
    calls threw; a text that is empty or too long is replaced without a
    word. *)
Theorem generateName_calls_and_console (w : W) (prompt : jsstring) :
  let init := InitModel OPENROUTER OPEN_AI_GPT_4_1_NANO in
  match h init w with
  | (w1, inl e) =>
      (run h (generateName prompt) w).1
      = (w1, [Called init (inl e); Logged "Error generating project name:"])
  | (w1, inr config) =>
      let generate :=
        GenerateText
          {| gt_model := model config;
             gt_headers := headers config;
             gt_prompt :=
               (js "Generate a concise and meaningful project name (2-4 words maximum) that reflects the main purpose or theme of the project based on user's creation prompt. Generate only the project name, nothing else. Keep it short and descriptive. User's creation prompt: <prompt>"
                ++ prompt ++ js "</prompt>")%list;
             gt_providerOptions := providerOptions config;
             gt_maxTokens := 50 |} in
      match h generate w1 with
      | (w2, inl e) =>
          (run h (generateName prompt) w).1
          = (w2,
             [ Called init (inr config); Called generate (inl e);
               Logged "Error generating project name:" ])
      | (w2, inr result) =>
          (run h (generateName prompt) w).1
          = (w2, [Called init (inr config); Called generate (inr result)])
      end
  end.
Proof.
  unfold generateName. cbn [try_catch bind await run].
  destruct (h (InitModel OPENROUTER OPEN_AI_GPT_4_1_NANO) w)
    as [w1 [e|config]]; cbn [try_catch bind await run]; [done|].
  fold (generateName_prompt prompt).
  destruct (h (GenerateText _) w1) as [w2 [e|result]];
    cbn [try_catch bind await run]; [done|].
  by destruct (_ && _); cbn [try_catch run].
Qed.

End GeneratedNames.

(** ** Further runs on sample data *)

Section FurtherRuns.
Import Stripe Billing Usage UsageView Project ProjectStore CreationSteps.
Import Sample MoreSamples.

Lemma updateSubscriptionNextPeriod_update_only_after_checks_witness :
  ∃ schedule currentPhase currentItem,
    schedule_id schedule = "sub_sched_sub_1"
    ∧ phases schedule !! 0%nat = Some currentPhase
    ∧ phase_items currentPhase !! 0%nat = Some currentItem
    ∧ price_toString (item_price currentItem) ≠ "".
Proof.
  destruct (updateSubscriptionNextPeriod_update_only_after_checks provider
              (provider_with "sub_1" [phase_pro]) "sub_1" "price_max"
              (stripe_client 1) "sub_sched_sub_1"
              {| param_phases :=
                   [ {| param_items :=
                          [ {| param_price := "price_pro";
                               param_quantity := Some 1 |} ];
                        param_start_date := Some 1748736000;
                        param_end_date := Some 1751328000;
                        param_iterations := None |};
                     {| param_items :=
                          [ {| param_price := "price_max";
                               param_quantity := Some 1 |} ];
                        param_start_date := None;
                        param_end_date := None;
                        param_iterations := Some 1 |} ] |})
    as (w1 & w2 & schedule & currentPhase & currentItem
        & _ & _ & Hphase & Hitem & Hprice & Hid & _).
  - do 2 apply list_elem_of_further. apply list_elem_of_here.
  - by exists schedule, currentPhase, currentItem.
Defined.

Lemma updateSubscriptionNextPeriod_expanded_price_witness :
  ∃ w schedule answer,
    run provider (updateSubscriptionNextPeriod "sub_1" "price_max")
        (provider_with "sub_1" [phase_expanded])
    = (w,
       [ Called CreateStripeClient (inr (stripe_client 1));
         Called (SubscriptionSchedulesCreate (stripe_client 1) "sub_1")
           (inr schedule);
         Called
           (SubscriptionSchedulesUpdate (stripe_client 1) "sub_sched_sub_1"
              {| param_phases :=
                   [ {| param_items :=
                          [ {| param_price := "[object Object]";
                               param_quantity := Some 2 |} ];
                        param_start_date := Some 1748736000;
                        param_end_date := Some 1751328000;
                        param_iterations := None |};
                     {| param_items :=
                          [ {| param_price := "price_max";
                               param_quantity := Some 1 |} ];
                        param_start_date := None;
                        param_end_date := None;
                        param_iterations := Some 1 |} ] |})
           answer ],
       answer).
Proof.
  epose proof (updateSubscriptionNextPeriod_expanded_price provider
                 (provider_with "sub_1" [phase_expanded]) _ _ _ _ _
                 phase_expanded item_expanded "price_pro" "sub_1"
                 "price_max" _
                 eq_refl eq_refl eq_refl eq_refl (or_introl eq_refl)
                 eq_refl) as Hrun.
  eexists _, _, _. exact Hrun.
Defined.

Lemma getSubscriptionChangeMessage_rendered_iff_witness :
  is_Some (getSubscriptionChangeMessage day_number
             (Some {| scheduledChange := Some cancellation |}))
  ∧ ¬ is_Some (getSubscriptionChangeMessage day_number
                 (Some {| scheduledChange :=
                            Some {| scheduledAction := Some PRICE_CHANGE;
                                    price := None;
                                    scheduledChangeAt :=
                                      {| time_value := 0 |} |} |})).
Proof.
  split.
  - apply (proj1 (getSubscriptionChangeMessage_rendered_iff day_number _)).
    exists cancellation. split; [done|]. by right.
  - intros Hsome.
    apply (proj1 (getSubscriptionChangeMessage_rendered_iff day_number _))
      in Hsome as (change & [= <-] & [[_ [? [=]]]|[=]]).
Defined.

Lemma UsageSection_tier_bucket_witness :
  UsageSection free_product day_number (Some subscribed_to_pro)
    (Some daily_only) = CalculatingUsage
  ∧ UsageSection free_product day_number (Some subscribed_to_pro)
      (Some sample_usage)
    = UsagePanel "Pro" "Active" 30 40 "monthly"
        (Some (Div "text-amber text-mini text-balance"
                 "Your subscription will end on day 20270"))
        75
  ∧ UsageSection free_product day_number None (Some sample_usage)
    = UsagePanel "Free" "Trial" 1 4 "daily" None 25.
Proof.
  destruct (UsageSection_tier_bucket free_product day_number)
    as (_ & Hmissing & Hpaid & Hfree).
  split_and!.
  - by apply (Hmissing (Some subscribed_to_pro) pro_product).
  - by rewrite (Hpaid (Some subscribed_to_pro) pro_product
                  (Some sample_usage)
                  {| usage := {| usageCount := 30; limitCount := 40 |};
                     period := "month" |}).
  - by rewrite (Hfree (Some sample_usage)
                  {| usage := {| usageCount := 1; limitCount := 4 |};
                     period := "day" |}).
Defined.

Lemma project_list_ties_keep_query_order_witness :
  ∃ result,
    (run store (project_list "ann") store_with_ties).2 = inr result
    ∧ filter (λ p, updatedAt_getTime p = Some 1750000000000) result
      = [notes; wiki].
Proof.
  destruct (project_list_ties_keep_query_order store store_with_ties
              store_with_ties "ann"
              [owned "ann" blog; owned "ann" notes; owned "ann" shop;
               owned "ann" wiki] 1750000000000)
    as (result & Hrun & Hties).
  - reflexivity.
  - repeat constructor; by eexists.
  - exists result. split; [done|]. by rewrite Hties.
Defined.

Lemma create_call_order_witness :
  ∃ w1 t,
    create strict_environment (sample_input (Some "prompt")) empty_world
    = (w1, t, inr blog)
    ∧ length (trace_calls t) = 8%nat
    ∧ last (trace_calls t)
      = Some (TrackEvent {| distinctId := "ann";
                            event := "user_create_project";
                            properties_projectId := "p1" |})
    ∧ analytics w1
      = [ {| distinctId := "ann"; event := "user_create_project";
             properties_projectId := "p1" |} ].
Proof.
  eexists _, _. split; [reflexivity|].
  epose proof (create_call_order strict_environment
                 (sample_input (Some "prompt")) empty_world _ _ blog
                 eq_refl) as (Hcalls & Hanalytics & _).
  rewrite Hcalls, Hanalytics. done.
Defined.

Lemma create_without_returned_row_witness :
  create no_row_returned (sample_input None) empty_world
  = (empty_world, [Called (InsertProjectReturning blog) (inr [])],
     inl (Error "Failed to create project in database")).
Proof.
  by apply (create_without_returned_row no_row_returned (sample_input None)
              empty_world).
Defined.

Lemma create_event_precedes_commit_witness :
  let '(w1, _, out) :=
    create failing_commit (sample_input None) empty_world in
  out = inl (Error "could not serialize access")
  ∧ database w1 = database empty_world
  ∧ analytics w1
    = [ {| distinctId := "ann"; event := "user_create_project";
           properties_projectId := "p1" |} ].
Proof.
  pose proof (create_event_precedes_commit failing_commit
                (sample_input None) empty_world blog
                (Error "could not serialize access")
                (λ _ _, eq_refl) eq_refl (λ _, eq_refl)) as Hrun.
  destruct (create failing_commit (sample_input None) empty_world)
    as [[w1 t] out].
  by destruct Hrun as (? & ? & ? & _).
Defined.

Lemma create_failed_insert_sends_no_event_witness :
  let '(w1, _, out) :=
    create refuses_frames (sample_input None) empty_world in
  out = inl (Error "violates foreign key constraint")
  ∧ analytics w1 = []
  ∧ database w1 = database empty_world.
Proof.
  pose proof (create_failed_insert_sends_no_event refuses_frames
                (sample_input None) empty_world) as Hrun.
  cbv beta iota delta [create transaction] in Hrun |- *.
  destruct (run (tx_handler refuses_frames)
              (create_callback (sample_input None)) empty_world)
    as [[w1 t] out] eqn:Hcreate.
  vm_compute in Hcreate. injection Hcreate as <- <- <-.
  apply (Hrun (InsertFrame _) _ eq_refl). by intros ev.
Defined.

Lemma delete_all_or_nothing_witness :
  ∃ w1 t,
    delete never_fails commit_goes_through "p1"
      {| database :=
           {| projects := [blog; shop];
              userProjects := [up_row (owned "ann" blog); up_row (owned "ann" shop)];
              canvases := []; userCanvases := []; frames := [];
              conversations := []; projectCreateRequests := [] |};
         analytics := [] |}
    = (w1, t, inr tt)
    ∧ trace_calls t = [DeleteProjects "p1"; DeleteUserProjects "p1"]
    ∧ projects (database w1) = [shop]
    ∧ Forall (λ r, up_projectId r ≠ "p1") (userProjects (database w1)).
Proof.
  eexists _, _. split; [reflexivity|].
  pose proof (delete_all_or_nothing never_fails commit_goes_through "p1"
                {| database :=
                     {| projects := [blog; shop];
                        userProjects := [up_row (owned "ann" blog); up_row (owned "ann" shop)];
                        canvases := []; userCanvases := []; frames := [];
                        conversations := []; projectCreateRequests := [] |};
                   analytics := [] |}) as Hrun.
  destruct (delete never_fails commit_goes_through "p1" _)
    as [[w1 t] out] eqn:Hdelete.
  vm_compute in Hdelete. injection Hdelete as <- <- <-.
  destruct Hrun as (Hsucceeds & Hcalls & Hprojects & Hjoin).
  pose proof (Hsucceeds ltac:(done) ltac:(done)) as _.
  split_and!; [exact Hcalls | exact Hprojects | exact Hjoin].
Defined.

Lemma create_then_delete_witness :
  ∃ w1 t1 w2 t2,
    create strict_environment (sample_input None) empty_world
    = (w1, t1, inr blog)
    ∧ delete never_fails commit_goes_through "p1" w1 = (w2, t2, inr tt)
    ∧ projects (database w2) = []
    ∧ Forall (λ r, up_projectId r ≠ "p1") (userProjects (database w2)).
Proof.
  eexists _, _, _, _. split; [reflexivity|]. split; [reflexivity|].
  exact (create_then_delete never_fails commit_goes_through
           strict_environment (sample_input None) empty_world
           _ _ _ _ blog tt eq_refl ltac:(constructor) eq_refl).
Defined.

Lemma get_after_delete_witness :
  ∃ w1 t,
    delete never_fails commit_goes_through "p1"
      {| database :=
           {| projects := [blog; shop]; userProjects := []; canvases := [];
              userCanvases := []; frames := []; conversations := [];
              projectCreateRequests := [] |};
         analytics := [] |}
    = (w1, t, inr tt)
    ∧ projects (database w1) = [shop]
    ∧ (run (store_handler never_fails) (get "p1") w1).2 = inr None.
Proof.
  eexists _, _. split; [reflexivity|]. split; [reflexivity|].
  exact (f_equal snd
           (get_after_delete never_fails commit_goes_through "p1" _ _ _ tt
              eq_refl eq_refl)).
Defined.

Lemma get_after_create_witness :
  ∃ w1 t,
    create strict_environment (sample_input None) empty_world
    = (w1, t, inr blog)
    ∧ (run (store_handler never_fails) (get "p1") w1).2 = inr (Some blog).
Proof.
  eexists _, _. split; [reflexivity|].
  exact (get_after_create never_fails strict_environment
           (sample_input None) empty_world _ _ blog eq_refl
           ltac:(constructor) eq_refl).
Defined.

Lemma generateName_name_is_clean_witness :
  ∃ name,
    (run scripted_model (generateName (js "a recipe app"))
         [inr (js "  Recipe Box ")]).2 = inr name
    ∧ head name = Some 82%N ∧ last name = Some 120%N.
Proof.
  destruct (generateName_name_is_clean scripted_model
              [inr (js "  Recipe Box ")] (js "a recipe app"))
    as (name & Hrun & _ & _ & _).
  exists name. split; [exact Hrun|].
  vm_compute in Hrun. by injection Hrun as <-.
Defined.

End FurtherRuns.
